(** * Verification of the research-paper pipeline (openAlex.py, searched_research.py)

    A shallow embedding of the two pipeline variants of the repository and
    the proofs of the properties stated about them.

    Modelling conventions.
    - A Python [str] is a [string]; every [ascii] stands for one code point
      in the range U+0000..U+00FF.  Whitespace ([str.strip], [\s]) and
      decimal digits ([\d]) are the members of those classes in that range.
    - A JSON object used through [.get] is a finite map ([gmap]) or a record
      of optional fields; a key that is missing is [None].  The body of a
      search answer is an object whose lists hold objects ([search_data]).
    - python-docx refuses a text that is not XML compatible: the functions
      of [Docx] with a name in [_checked] carry that failure, the others
      give the blocks that the code asks for.
    - The outside world (environment variables, the two HTTP services, the
      clock, the file system) is a record of oracles that may depend on the
      history of the run; every interaction is appended to a trace.
    - A Python exception is the [Raise] outcome of the monad [M].
    - A keyboard interrupt can arrive at any moment of a run; the relation
      [main_ends] lists the ways in which a run of [main] can end, with or
      without one.
    - Console output ([print]) is not modelled. *)

From Stdlib Require Import Ascii String NArith ZArith DecimalString.
From stdpp Require Import base option list strings sorting gmap.

Local Open Scope N_scope.

(** ** Characters *)

Definition LF : ascii := ascii_of_N 10.

(** [str.isspace] / [\s] on one code point below U+0100:
    TAB..CR, FS..US, SPACE, NEL and NBSP. *)
Definition is_space (c : ascii) : bool :=
  let n := N_of_ascii c in
  ((9 <=? n) && (n <=? 13)) || ((28 <=? n) && (n <=? 32))
  || (n =? 133) || (n =? 160).

(** [\d] on one code point below U+0100: the digits 0..9. *)
Definition is_decimal (c : ascii) : bool :=
  let n := N_of_ascii c in (48 <=? n) && (n <=? 57).

(** [.] without DOTALL: anything but a line feed. *)
Definition is_dot (c : ascii) : bool := negb (Ascii.eqb c LF).

Definition is_char (a c : ascii) : bool := Ascii.eqb a c.

Local Close Scope N_scope.

(** ** Python string built-ins *)

Module Py.

Fixpoint mem (c : ascii) (chars : string) : bool :=
  match chars with
  | EmptyString => false
  | String a chars' => Ascii.eqb c a || mem c chars'
  end.

Definition truthy (s : string) : bool :=
  match s with EmptyString => false | String _ _ => true end.

Fixpoint lstrip_by (p : ascii → bool) (s : string) : string :=
  match s with
  | EmptyString => EmptyString
  | String c s' => if p c then lstrip_by p s' else s
  end.

Fixpoint rstrip_by (p : ascii → bool) (s : string) : string :=
  match s with
  | EmptyString => EmptyString
  | String c s' =>
      match rstrip_by p s' with
      | EmptyString => if p c then EmptyString else String c EmptyString
      | r => String c r
      end
  end.

Definition strip_by (p : ascii → bool) (s : string) : string :=
  rstrip_by p (lstrip_by p s).

(** [s.strip()] *)
Definition strip (s : string) : string := strip_by is_space s.

(** [s.strip(chars)]: [chars] is a set of characters, not a substring. *)
Definition strip_chars (chars s : string) : string :=
  strip_by (λ c, mem c chars) s.

(** [s.split(sep)] for a one-character separator. *)
Fixpoint split (sep : ascii) (s : string) : list string :=
  match s with
  | EmptyString => [EmptyString]
  | String c s' =>
      if Ascii.eqb c sep then EmptyString :: split sep s'
      else match split sep s' with
           | [] => [String c EmptyString]
           | w :: ws => String c w :: ws
           end
  end.

(** [sep.join(l)] *)
Fixpoint join (sep : string) (l : list string) : string :=
  match l with
  | [] => EmptyString
  | [x] => x
  | x :: l' => x +:+ sep +:+ join sep l'
  end.

End Py.

(** ** A backtracking matcher for the regular-expression fragment in use

    Matchers are written in continuation-passing style: a matcher consumes a
    prefix of the subject and hands the rest to its continuation; when the
    continuation fails the matcher tries its next alternative, in the order
    of a backtracking engine (greedy: longest first, lazy: shortest first). *)

Module Re.
Section matcher.
Context {R : Type}.

Definition chr (p : ascii → bool) (s : string) (k : string → option R) : option R :=
  match s with
  | String c s' => if p c then k s' else None
  | EmptyString => None
  end.

(** [x*] *)
Fixpoint star (p : ascii → bool) (s : string) (k : string → option R) : option R :=
  match s with
  | String c s' =>
      if p c then
        match star p s' k with
        | Some r => Some r
        | None => k s
        end
      else k s
  | EmptyString => k s
  end.

(** [x+] *)
Definition plus (p : ascii → bool) (s : string) (k : string → option R) : option R :=
  chr p s (λ s', star p s' k).

(** [(x*?)]: the continuation also receives the captured text. *)
Fixpoint star_lazy (p : ascii → bool) (s : string)
    (k : string → string → option R) : option R :=
  match k EmptyString s with
  | Some r => Some r
  | None =>
      match s with
      | String c s' =>
          if p c then star_lazy p s' (λ cap rest, k (String c cap) rest)
          else None
      | EmptyString => None
      end
  end.

(** [(?:r)?] *)
Definition opt (r : string → (string → option R) → option R)
    (s : string) (k : string → option R) : option R :=
  match r s k with
  | Some x => Some x
  | None => k s
  end.

(** [$]: at the end, or before a line feed that ends the subject. *)
Definition eos (s : string) : bool :=
  match s with
  | EmptyString => true
  | String c EmptyString => Ascii.eqb c LF
  | _ => false
  end.

End matcher.
End Re.

(** The call [re.match(pattern, line)] with the pattern
    [^ \d+ \. \s* ( .*? ) (?: : .* )? $] (spaces added for reading), giving
    [match.group(1)]. *)
Definition match_numbered (line : string) : option string :=
  Re.plus is_decimal line (λ s1,
  Re.chr (is_char "."%char) s1 (λ s2,
  Re.star is_space s2 (λ s3,
  Re.star_lazy is_dot s3 (λ cap s4,
  Re.opt (λ s k, Re.chr (is_char ":"%char) s (λ s5, Re.star is_dot s5 k)) s4 (λ s6,
  if Re.eos s6 then Some cap else None))))).

(** The body of the [for line in raw_response.split('\n')] loop of
    [generate_subcategories]. *)
Definition parse_line (subcategories : list string) (line : string) : list string :=
  let line := Py.strip line in
  match match_numbered line with
  | Some group1 =>
      let subcategory := Py.strip group1 in
      let subcategory := Py.strip_chars "**" subcategory in
      subcategories ++ [subcategory]
  | None => subcategories
  end.

Definition parse_subcategories (raw_response : string) : list string :=
  foldl parse_line [] (Py.split LF raw_response).

(** The label a line contributes, if it is a numbered line. *)
Definition numbered_label (line : string) : option string :=
  (λ group1, Py.strip_chars "**" (Py.strip group1)) <$> match_numbered (Py.strip line).

(** ** JSON values and their Python view *)

(** The scalar JSON values the services return in the fields that are read.
    A field that is missing from its object is [None : option jval]. *)
Inductive jval :=
  | JNull
  | JBool (b : bool)
  | JInt (z : Z)
  | JStr (s : string).

Global Instance jval_eq_dec : EqDecision jval.
Proof. solve_decision. Defined.

(** [d.get(key)] and [d.get(key, default)] on a field. *)
Definition get (field : option jval) : jval := default JNull field.
Definition get_or (field : option jval) (dflt : jval) : jval := default dflt field.

(** [str(v)], as used by an f-string replacement field. *)
Definition py_str (v : jval) : string :=
  match v with
  | JNull => "None"
  | JBool true => "True"
  | JBool false => "False"
  | JInt z => DecimalString.NilZero.string_of_int (Z.to_int z)
  | JStr s => s
  end.

(** Truth value of [v] in a condition. *)
Definition py_bool (v : jval) : bool :=
  match v with
  | JNull => false
  | JBool b => b
  | JInt z => negb (Z.eqb z 0)
  | JStr s => Py.truthy s
  end.

(** ** Outcomes, the trace and the monad *)

Inductive exn :=
  | TypeError
  | AttributeError
  | ValueError
  | KeyboardInterrupt
  | SystemExit (code : Z).

Inductive outcome (A : Type) :=
  | Ok (a : A)
  | Raise (e : exn).
Global Arguments Ok {A} a.
Global Arguments Raise {A} e.

Global Instance outcome_ret : MRet outcome := λ A a, Ok a.
Global Instance outcome_bind : MBind outcome := λ A B f m,
  match m with
  | Ok a => f a
  | Raise e => Raise e
  end.

(** An OpenAlex work, as far as [research_subcategory] reads it. *)
Record author := { display_name : option jval }.
Record authorship := { authorship_author : option author }.
Record work := {
  work_title : option jval;
  work_authorships : option (list authorship);
  work_doi : option jval;
  work_publication_year : option jval
}.

(** A Google Custom Search item. *)
Record item := {
  item_title : option jval;
  item_snippet : option jval;
  item_link : option jval
}.

(** The JSON body of a search response: the keys ['results'] (OpenAlex) and
    ['items'] (Google).  The body is taken to be a JSON object, the value
    under these keys a list, and each member of the list an object.  A
    body of another shape, on which [data.get] or [result.get] raises
    [AttributeError] and the iteration raises [TypeError], has no
    counterpart here: what is stated of the searches is stated of answers
    of this shape. *)
Record search_data := {
  data_results : option (list work);
  data_items : option (list item)
}.

Record message := { role : string; content : string }.

(** What [make_llm_request] posts. *)
Record post_request := {
  post_url : string;
  post_authorization : string;
  post_temperature : string;   (* the JSON number, as serialised *)
  post_max_tokens : Z;
  post_messages : list message;
  post_model : string;
  post_prompt : string
}.

Record get_request := {
  get_url : string;
  get_params : list (string * string)
}.

(** Result of one [requests] call: an exception of the
    [RequestException] family, or a response with its status and body. *)
Inductive http_result (A : Type) :=
  | HttpError
  | HttpResponse (status : Z) (body : A).
Global Arguments HttpError {A}.
Global Arguments HttpResponse {A} status body.

Inductive event :=
  | EvPost (req : post_request)
  | EvGet (req : get_request)
  | EvWrite (filename text : string)
(** [doc.save(filename)]: the document that python-docx renders from the
    body text and the reference entries is recorded by these two inputs. *)
| EvSaveDocx (filename body : string) (references : list string).

Definition trace := list event.

Record world := {
  getenv : string → option string;
  http_post : trace → post_request → http_result (gmap string jval);
  http_get : trace → get_request → http_result search_data;
(** [datetime.datetime.now().strftime("%Y%m%d_%H%M%S")] *)
now : trace → string
}.

Definition M (A : Type) : Type := trace → outcome A * trace.

Global Instance M_ret : MRet M := λ A a tr, (Ok a, tr).
Global Instance M_bind : MBind M := λ A B f m tr,
  match m tr with
  | (Ok a, tr') => f a tr'
  | (Raise e, tr') => (Raise e, tr')
  end.

Definition lift {A} (o : outcome A) : M A := λ tr, (o, tr).
Definition raise {A} (e : exn) : M A := lift (Raise e).

Definition is_post (e : event) : bool :=
  match e with EvPost _ => true | _ => false end.

Fixpoint foldlM {A B} (f : A → B → M A) (a : A) (l : list B) : M A :=
  match l with
  | [] => mret a
  | x :: l' => a' ← f a x; foldlM f a' l'
  end.

Fixpoint foldl_outcome {A B} (f : A → B → outcome A) (a : A) (l : list B) : outcome A :=
  match l with
  | [] => Ok a
  | x :: l' => a' ← f a x; foldl_outcome f a' l'
  end.

(** A value used where Python needs a [str]: the receiver of [.strip()] or
    [.split()] (otherwise [AttributeError]), an item of [str.join] or an
    operand of [+] with a [str] (otherwise [TypeError]). *)
Definition as_str (e : exn) (v : jval) : outcome string :=
  match v with
  | JStr s => Ok s
  | _ => Raise e
  end.

(** [sep.join(items)] on a list that was read from JSON. *)
Fixpoint strs_of (items : list jval) : outcome (list string) :=
  match items with
  | [] => Ok []
  | v :: items' =>
      s ← as_str TypeError v;
      ss ← strs_of items';
      Ok (s :: ss)
  end.

Definition py_join (sep : string) (items : list jval) : outcome string :=
  ss ← strs_of items; Ok (Py.join sep ss).

(** Truth value of a response of [make_llm_request]: [None] and the empty
    dict are false. *)
Definition dict_truthy (response : option (gmap string jval)) : option (gmap string jval) :=
  match response with
  | Some d => if decide (d = ∅) then None else Some d
  | None => None
  end.

(** Truth value of a narrative ([None] or a [str]). *)
Definition text_truthy (text : option string) : bool :=
  match text with
  | Some s => Py.truthy s
  | None => false
  end.

Definition NL : string := String LF "".
(** A line break inside one of the indented triple-quoted prompts. *)
Definition NLI : string := String LF "    ".

(** ** The reference consolidator

    [sorted(list(set(ref.strip() for ref in all_references if ref.strip())))].
    The order in which a [set] is listed is arbitrary; the model lists it in
    the order of [elements], and [consolidate_any_listing] shows that the
    sorted result does not depend on it. *)
Definition stripped_refs (all_references : list string) : gset string :=
  list_to_set (Py.strip <$> filter (λ ref, Py.truthy (Py.strip ref)) all_references).

Definition sorted (l : list string) : list string := merge_sort String.le l.

Definition consolidate (all_references : list string) : list string :=
  sorted (elements (stripped_refs all_references)).

(** Every character of [s] is of the class [p]. *)
Fixpoint all_chars (p : ascii → bool) (s : string) : bool :=
  match s with
  | EmptyString => true
  | String c s' => p c && all_chars p s'
  end.

(** ** The word-processor document (generate_docx_document)

    The document object that python-docx builds is the list of the blocks
    that were added to it, in order, after the four page margins.  The
    event [EvSaveDocx filename body references] stands for saving
    [document body references], which is saved only when python-docx has
    accepted every block ([document_checked]). *)

Module Docx.

Inductive alignment := LEFT | CENTER.

(** [Inches(x)] in English Metric Units. *)
Definition half_inch : Z := 457200.
Definition one_inch : Z := 914400.

Inductive block :=
  (** [doc.add_heading(text, level)] with its alignment *)
  | Heading (text : string) (level : Z) (align : alignment)
  (** [doc.add_paragraph(text)] with the properties that were set:
      line spacing (2 stands for 2.0), left and first-line indent,
      alignment *)
  | Paragraph (text : string) (line_spacing : Z)
      (left_indent : option Z) (first_line_indent : option Z)
      (align : option alignment).

Record docx := {
  top_margin : Z;
  bottom_margin : Z;
  left_margin : Z;
  right_margin : Z;
  blocks : list block
}.

(** [c.lower()] for one code point below U+0100. *)
Definition lower_char (c : ascii) : ascii :=
  let n := N_of_ascii c in
  if ((65 <=? n) && (n <=? 90) || (192 <=? n) && (n <=? 214)
      || (216 <=? n) && (n <=? 222))%N
  then ascii_of_N (n + 32) else c.

(** [s.lower()] *)
Fixpoint lower (s : string) : string :=
  match s with
  | EmptyString => EmptyString
  | String c s' => String (lower_char c) (lower s')
  end.

(** The class [A-Z]. *)
Definition is_upper (c : ascii) : bool :=
  let n := N_of_ascii c in ((65 <=? n) && (n <=? 90))%N.

(** The class [a-zA-Z\s,]. *)
Definition is_heading_char (c : ascii) : bool :=
  let n := N_of_ascii c in
  ((97 <=? n) && (n <=? 122))%N || is_upper c || is_space c || is_char ","%char c.

(** [re.match(pattern, line)] with the pattern [^ [A-Z] [a-zA-Z\s,]+ $]
    (spaces added for reading), as a truth value. *)
Definition match_heading (line : string) : bool :=
  match Re.chr is_upper line (λ s1,
        Re.plus is_heading_char s1 (λ s2,
        if Re.eos s2 then Some () else None)) with
  | Some _ => true
  | None => false
  end.

Definition section_names : list string :=
  ["title"; "abstract"; "introduction"; "conclusion"].

(** One iteration of the loop of [add_dynamic_headings]. *)
Definition add_line (doc : list block) (line : string) : list block :=
  let line := Py.strip line in
  if negb (Py.truthy line) then doc
  else if bool_decide (lower line ∈ section_names) then
    doc ++ [Heading line 1 CENTER]
  else if match_heading line then
    doc ++ [Heading line 2 LEFT]
  else
    doc ++ [Paragraph line 2 None (Some half_inch) None].

Definition add_dynamic_headings (doc : list block) (text : string) : list block :=
  foldl add_line doc (Py.split LF text).

(** The References section: nothing at all when there is no reference. *)
Definition add_references (doc : list block) (unique_references : list string) : list block :=
  match unique_references with
  | [] => doc
  | _ :: _ =>
      foldl (λ doc ref_entry,
               doc ++ [Paragraph ref_entry 2 (Some half_inch) (Some (- half_inch)%Z) (Some LEFT)])
            (doc ++ [Heading "References" 1 CENTER]) unique_references
  end.

Definition document (plain_text_paper : string) (unique_references : list string) : docx :=
  {| top_margin := one_inch; bottom_margin := one_inch;
     left_margin := one_inch; right_margin := one_inch;
     blocks := add_references (add_dynamic_headings [] plain_text_paper) unique_references |}.

(** How the specification words the classification of one line that is
    not blank. *)
Definition classify (line : string) : block :=
  if bool_decide (lower line ∈ section_names) then Heading line 1 CENTER
  else match line with
       | String c rest =>
           if is_upper c && Py.truthy rest && all_chars is_heading_char rest
           then Heading line 2 LEFT
           else Paragraph line 2 None (Some half_inch) None
       | EmptyString => Paragraph line 2 None (Some half_inch) None
       end.

Definition block_text (b : block) : string :=
  match b with
  | Heading text _ _ => text
  | Paragraph text _ _ _ _ => text
  end.

Definition reference_block (ref_entry : string) : block :=
  Paragraph ref_entry 2 (Some half_inch) (Some (- half_inch)%Z) (Some LEFT).

(** *** What python-docx accepts

    The functions above give the blocks that the code asks for.
    [add_heading] and [add_paragraph] raise [ValueError] when the text is
    not XML compatible: below U+0100 that is a control character under
    U+0020 other than tab, line feed and carriage return. *)

Definition xml_compatible (c : ascii) : bool :=
  let n := N_of_ascii c in ((32 <=? n) || (n =? 9) || (n =? 10) || (n =? 13))%N.

Definition accepted (b : block) : bool := all_chars xml_compatible (block_text b).

(** [doc.add_heading(...)] or [doc.add_paragraph(...)], with its failure. *)
Definition add_block (doc : list block) (b : block) : outcome (list block) :=
  if accepted b then Ok (doc ++ [b]) else Raise ValueError.

(** One iteration of the loop of [add_dynamic_headings], with the failure
    of the library call. *)
Definition add_line_checked (doc : list block) (line : string) : outcome (list block) :=
  let line := Py.strip line in
  if negb (Py.truthy line) then Ok doc
  else if bool_decide (lower line ∈ section_names) then
    add_block doc (Heading line 1 CENTER)
  else if match_heading line then
    add_block doc (Heading line 2 LEFT)
  else
    add_block doc (Paragraph line 2 None (Some half_inch) None).

Definition add_dynamic_headings_checked (doc : list block) (text : string)
    : outcome (list block) :=
  foldl_outcome add_line_checked doc (Py.split LF text).

Definition add_references_checked (doc : list block) (unique_references : list string)
    : outcome (list block) :=
  match unique_references with
  | [] => Ok doc
  | _ :: _ =>
      doc ← add_block doc (Heading "References" 1 CENTER);
      foldl_outcome (λ doc ref_entry, add_block doc (reference_block ref_entry))
                    doc unique_references
  end.

(** The document that is saved, or the [ValueError] that prevents it. *)
Definition document_checked (plain_text_paper : string) (unique_references : list string)
    : outcome docx :=
  body ← add_dynamic_headings_checked [] plain_text_paper;
  all ← add_references_checked body unique_references;
  Ok {| top_margin := one_inch; bottom_margin := one_inch;
        left_margin := one_inch; right_margin := one_inch;
        blocks := all |}.

End Docx.

(** ** Code shared by the two variants *)

Module Shared.
Section shared.
Variable W : world.

Definition post (req : post_request) : M (http_result (gmap string jval)) :=
  λ tr, (Ok (http_post W tr req), tr ++ [EvPost req]).

Definition requests_get (req : get_request) : M (http_result search_data) :=
  λ tr, (Ok (http_get W tr req), tr ++ [EvGet req]).

Definition write_file (filename text : string) : M unit :=
  λ tr, (Ok (), tr ++ [EvWrite filename text]).

Definition save_docx (filename body : string) (references : list string) : M unit :=
  λ tr, (Ok (), tr ++ [EvSaveDocx filename body references]).

Definition timestamp : M string := λ tr, (Ok (now W tr), tr).

(** [os.getenv(name)] followed by a truth test. *)
Definition getenv_truthy (name : string) : option string :=
  match getenv W name with
  | Some v => if Py.truthy v then Some v else None
  | None => None
  end.

Definition validate_api_key : option string := getenv_truthy "AMPLIFY_API_KEY".

Definition make_llm_request (messages : list message) (model temperature : string)
    (max_tokens : Z) : M (option (gmap string jval)) :=
  match validate_api_key with
  | None => mret None
  | Some API_KEY =>
      let prompt_text :=
        default "" (content <$> head (filter (λ msg, role msg = "user") messages)) in
      r ← post {| post_url := "https://prod-api.vanderbilt.ai/chat";
                  post_authorization := "Bearer " +:+ API_KEY;
                  post_temperature := temperature;
                  post_max_tokens := max_tokens;
                  post_messages := messages;
                  post_model := model;
                  post_prompt := prompt_text |};
      match r with
      | HttpResponse status body =>
          if (status =? 200)%Z then mret (Some body) else mret None
      | HttpError => mret None
      end
  end.

(** [response.get("data", "")] *)
Definition response_data (response : gmap string jval) : jval :=
  get_or (response !! "data") (JStr "").

(** The one-message conversation every call sends. *)
Definition user_message (text : string) : list message :=
  [ {| role := "user"; content := text |} ].

Definition decompose_prompt (topic : string) : string :=
  "Given the research topic: '" +:+ topic +:+
  "', generate a list of 3 to 5 logical subcategories for an in-depth research paper.".

Definition generate_subcategories (topic : string) : M (option (list string)) :=
  let messages := user_message (decompose_prompt topic) in
  response ← make_llm_request messages "gpt-4o-mini" "0.4" 200;
  match dict_truthy response with
  | Some response =>
      data ← lift (as_str AttributeError (response_data response));
      let raw_response := Py.strip data in
      let subcategories := parse_subcategories raw_response in
      match subcategories with
      | _ :: _ => mret (Some subcategories)
      | [] => mret None
      end
  | None => mret None
  end.

Definition txt_prompt (main_topic full_research_text : string) : string :=
  "Write a full research paper on the topic: '" +:+ main_topic +:+ "'." +:+ NLI +:+
  "Synthesize the following research findings for the content of the paper, tracing connections between the subtopics." +:+ NLI +:+
  "Your output should be a single, plain text document without any special formatting like Markdown. Do not include a references section." +:+ NLI +:+
  NLI +:+
  "Research Findings:" +:+ NLI +:+
  full_research_text +:+ NLI +:+
  NLI +:+
  "The paper should have the following sections:" +:+ NLI +:+
  "- Title" +:+ NLI +:+
  "- Abstract" +:+ NLI +:+
  "- Introduction" +:+ NLI +:+
  "- Body Sections (based on the research findings)" +:+ NLI +:+
  "- Conclusion" +:+ NLI.

Definition generate_txt_document (main_topic : string)
    (research_findings all_references : list string) : M (option string) :=
  let full_research_text := Py.join (NL +:+ NL) research_findings in
  let messages := user_message (txt_prompt main_topic full_research_text) in
  response ← make_llm_request messages "gpt-4o" "0.6" 4000;
  match dict_truthy response with
  | Some response =>
      let plain_text_paper := response_data response in
      if py_bool plain_text_paper then
        stamp ← timestamp;
        let output_filename := "research_paper_" +:+ stamp +:+ ".txt" in
        let unique_references := consolidate all_references in
        body ← lift (as_str TypeError plain_text_paper);
        let final_text :=
          body +:+ (NL +:+ NL +:+ "References" +:+ NL +:+ NL) +:+ Py.join NL unique_references in
        write_file output_filename final_text;;
        mret (Some output_filename)
      else mret None
  | None => mret None
  end.

Definition markdown_prompt (main_topic full_research_text : string) : string :=
  "Write a full research paper on the topic: '" +:+ main_topic +:+ "'." +:+ NLI +:+
  "Synthesize the following research findings, using Markdown syntax to format the document. Do not include a references section." +:+ NLI +:+
  NLI +:+
  "Use a single '#' for the main title, '##' for main sections (e.g., Introduction, Conclusion), and '###' for sub-sections." +:+ NLI +:+
  NLI +:+
  "Research Findings:" +:+ NLI +:+
  full_research_text +:+ NLI.

Definition generate_markdown_document (main_topic : string)
    (research_findings all_references : list string) : M (option string) :=
  let full_research_text := Py.join (NL +:+ NL) research_findings in
  let messages := user_message (markdown_prompt main_topic full_research_text) in
  response ← make_llm_request messages "gpt-4o" "0.6" 4000;
  match dict_truthy response with
  | Some response =>
      let markdown_paper := response_data response in
      if py_bool markdown_paper then
        stamp ← timestamp;
        let output_filename := "research_paper_" +:+ stamp +:+ ".md" in
        let unique_references := consolidate all_references in
        let references_markdown :=
          (NL +:+ NL +:+ "## References" +:+ NL +:+ NL) +:+
          Py.join NL ((λ ref, "- " +:+ ref) <$> unique_references) in
        body ← lift (as_str TypeError markdown_paper);
        let final_text := body +:+ references_markdown in
        write_file output_filename final_text;;
        mret (Some output_filename)
      else mret None
  | None => mret None
  end.

Definition docx_prompt (main_topic full_research_text : string) : string :=
  "Write a full research paper in APA format on the topic: '" +:+ main_topic +:+ "'." +:+ NLI +:+
  "Synthesize the following research findings, tracing connections between the subtopics." +:+ NLI +:+
  "The output should be a single, plain text document with no special formatting. Ensure section titles are on their own lines. Do not include a references section." +:+ NLI +:+
  NLI +:+
  "Research Findings:" +:+ NLI +:+
  full_research_text +:+ NLI +:+
  NLI +:+
  "The paper should have the following sections, with each title on a new line:" +:+ NLI +:+
  "- Title" +:+ NLI +:+
  "- Abstract" +:+ NLI +:+
  "- Introduction" +:+ NLI +:+
  "- Body Sections (based on the research findings)" +:+ NLI +:+
  "- Conclusion" +:+ NLI.

Definition generate_docx_document (main_topic : string)
    (research_findings all_references : list string) : M (option string) :=
  let full_research_text := Py.join (NL +:+ NL) research_findings in
  let messages := user_message (docx_prompt main_topic full_research_text) in
  response ← make_llm_request messages "gpt-4o" "0.6" 4000;
  match dict_truthy response with
  | Some response =>
      let plain_text_paper := response_data response in
      if py_bool plain_text_paper then
        body ← lift (as_str AttributeError plain_text_paper);
        let unique_references := consolidate all_references in
        lift (Docx.document_checked body unique_references);;
        stamp ← timestamp;
        let output_filename := "research_paper_" +:+ stamp +:+ ".docx" in
        save_docx output_filename body unique_references;;
        mret (Some output_filename)
      else mret None
  | None => mret None
  end.

(** *** The driver, for either variant of [research_subcategory] *)
Section driver.
Variable research_subcategory : string → M (option string * list string).

(** One iteration of [for subcategory in subcategories]. *)
Definition research_step (acc : list string * list string) (subcategory : string)
    : M (list string * list string) :=
  let '(all_research_findings, all_references) := acc in
  '(research_text, references) ← research_subcategory subcategory;
  match research_text with
  | Some ((String _ _) as text) =>
      mret (all_research_findings ++ [text], all_references ++ references)
  | _ => mret (all_research_findings, all_references)
  end.

Definition research_loop (subcategories : list string) : M (list string * list string) :=
  foldlM research_step ([], []) subcategories.

(** Step 3 of [main]: the dispatch on the format and the final test. *)
Definition coalesce (main_topic doc_format : string)
    (all_research_findings all_references : list string) : M string :=
  final_doc_path ←
    (if decide (doc_format = "txt") then
       generate_txt_document main_topic all_research_findings all_references
     else if decide (doc_format = "md") then
       generate_markdown_document main_topic all_research_findings all_references
     else
       generate_docx_document main_topic all_research_findings all_references);
  match final_doc_path with
  | Some path => mret path
  | None => raise (SystemExit 1)
  end.

(** Steps 2 and 3 of [main]. *)
Definition research_and_coalesce (main_topic doc_format : string)
    (subcategories : list string) : M string :=
  '(all_research_findings, all_references) ← research_loop subcategories;
  match all_research_findings with
  | [] => raise (SystemExit 1)
  | _ :: _ => coalesce main_topic doc_format all_research_findings all_references
  end.

(** The [try] block of [main]; [main_topic] is the first line read from
    the console and [doc_format] the second one in lower case. *)
Definition main_body (main_topic doc_format : string) : M string :=
  match validate_api_key with
  | None => raise (SystemExit 1)
  | Some _ =>
      if negb (Py.truthy main_topic) then raise (SystemExit 1)
      else if negb (bool_decide (doc_format ∈ ["txt"; "md"; "docx"])) then
        raise (SystemExit 1)
      else
        subcategories ← generate_subcategories main_topic;
        match subcategories with
        | Some ((_ :: _) as subcategories) =>
            research_and_coalesce main_topic doc_format subcategories
        | _ => raise (SystemExit 1)
        end
  end.

(** The [except] clauses of [main], applied to what the [try] block did:
    [except KeyboardInterrupt: sys.exit(0)], then
    [except Exception: sys.exit(1)]; [SystemExit] is neither and passes. *)
Definition except_clauses (r : outcome string * trace) : outcome string * trace :=
  match r with
  | (Raise (SystemExit code), tr') => (Raise (SystemExit code), tr')
  | (Raise KeyboardInterrupt, tr') => (Raise (SystemExit 0), tr')
  | (Raise _, tr') => (Raise (SystemExit 1), tr')
  | (Ok path, tr') => (Ok path, tr')
  end.

(** A run of [main] that no keyboard interrupt disturbs. *)
Definition main (main_topic doc_format : string) : M string :=
  λ tr, except_clauses (main_body main_topic doc_format tr).
End driver.

End shared.
End Shared.

(** ** openAlex.py *)

Module OpenAlex.
Section openalex.
Variable W : world.

Definition raise_for_status (status : Z) : bool :=
  ((400 <=? status) && (status <? 600))%Z.

Definition openalex_search (query : string) (limit : Z) (mailto : option string)
    : M (list work) :=
  let params :=
    [ ("search", query);
      ("per-page", py_str (JInt limit));
      ("select", "id,doi,title,authorships,cited_by_count,publication_year") ] ++
    match mailto with
    | Some ((String _ _) as m) => [("mailto", m)]
    | _ => []
    end in
  r ← Shared.requests_get W {| get_url := "https://api.openalex.org/works"; get_params := params |};
  match r with
  | HttpResponse status data =>
      if raise_for_status status then mret [] else mret (default [] (data_results data))
  | HttpError => mret []
  end.

(** [", ".join([a.get('author', {}).get('display_name') for a in authorships])] *)
Definition author_names (result : work) : outcome string :=
  let authorships := default [] (work_authorships result) in
  py_join ", "
    ((λ a, get (display_name (default {| display_name := None |} (authorship_author a))))
       <$> authorships).

Definition year_field (result : work) : jval :=
  get_or (work_publication_year result) (JStr "n.d.").

(** The reference string of one work, given its attribution string. *)
Definition ref_string (names : string) (result : work) : string :=
  let title := get (work_title result) in
  let doi := get (work_doi result) in
  let ref_string :=
    names +:+ " (" +:+ py_str (year_field result) +:+ "). " +:+ py_str title +:+ "." in
  if py_bool doi then ref_string +:+ " " +:+ py_str doi else ref_string.

Definition context_block (names : string) (result : work) : string :=
  "Title: " +:+ py_str (get (work_title result)) +:+ NL +:+
  "Authors: " +:+ names +:+ NL +:+
  "DOI: " +:+ py_str (get (work_doi result)) +:+ NL +:+ NL.

(** One iteration of [for result in search_results]. *)
Definition extract_step (acc : string * list string) (result : work)
    : outcome (string * list string) :=
  let '(context_data, references) := acc in
  names ← author_names result;
  Ok (context_data +:+ context_block names result,
      references ++ [ref_string names result]).

Definition extract (search_results : list work) : outcome (string * list string) :=
  foldl_outcome extract_step ("", []) search_results.

Definition prompt (subcategory context_data : string) : string :=
  "Synthesize a detailed academic summary for the subtopic '" +:+ subcategory +:+
  "' using the following scholarly article metadata." +:+ NLI +:+
  "Trace connections between the articles and the broader subtopic." +:+ NLI +:+
  "Your summary must be in plain text and should not contain any in-text citations or references." +:+ NLI +:+
  NLI +:+
  "Scholarly Article Metadata:" +:+ NLI +:+
  context_data +:+ NLI.

Definition research_subcategory (subcategory : string) : M (option string * list string) :=
  let email := getenv W "OPENALEX_EMAIL" in
  let search_query := subcategory +:+ " research paper" in
  search_results ← openalex_search search_query 5 email;
  match search_results with
  | [] => mret (None, [])
  | _ :: _ =>
      '(context_data, references) ← lift (extract search_results);
      let messages := Shared.user_message (prompt subcategory context_data) in
      response ← Shared.make_llm_request W messages "gpt-4o" "0.5" 2500;
      match dict_truthy response with
      | Some response =>
          data ← lift (as_str AttributeError (Shared.response_data response));
          let body_text := Py.strip data in
          mret (Some body_text, references)
      | None => mret (None, [])
      end
  end.

Definition main := Shared.main W research_subcategory.

End openalex.
End OpenAlex.

(** ** searched_research.py *)

Module Searched.
Section searched.
Variable W : world.

Definition validate_google_search_api_key : option (string * string) :=
  match Shared.getenv_truthy W "GOOGLE_SEARCH_API_KEY", Shared.getenv_truthy W "GOOGLE_CSE_ID" with
  | Some API_KEY, Some CSE_ID => Some (API_KEY, CSE_ID)
  | _, _ => None
  end.

Definition google_search (query : string) : M (list item) :=
  match validate_google_search_api_key with
  | None => mret []
  | Some (api_key, cse_id) =>
      let url := "https://www.googleapis.com/customsearch/v1?key=" +:+ api_key +:+
                 "&cx=" +:+ cse_id +:+ "&q=" +:+ query in
      r ← Shared.requests_get W {| get_url := url; get_params := [] |};
      match r with
      | HttpResponse status data =>
          if OpenAlex.raise_for_status status then mret []
          else mret (default [] (data_items data))
      | HttpError => mret []
      end
  end.

Definition ref_string (result : item) : string :=
  py_str (get (item_title result)) +:+ ". " +:+ py_str (get (item_link result)).

Definition context_block (result : item) : string :=
  "Title: " +:+ py_str (get (item_title result)) +:+ NL +:+
  "Snippet: " +:+ py_str (get_or (item_snippet result) (JStr "No snippet available.")) +:+ NL +:+
  "URL: " +:+ py_str (get (item_link result)) +:+ NL +:+ NL.

Definition extract_step (acc : string * list string) (result : item) : string * list string :=
  let '(context_data, references) := acc in
  (context_data +:+ context_block result, references ++ [ref_string result]).

Definition extract (search_results : list item) : string * list string :=
  foldl extract_step ("", []) search_results.

Definition prompt (subcategory context_data : string) : string :=
  "Synthesize a detailed academic summary for the subtopic '" +:+ subcategory +:+
  "' using the following search results." +:+ NLI +:+
  "Do not hallucinate or include in-text citations." +:+ NLI +:+
  NLI +:+
  "Search Results:" +:+ NLI +:+
  context_data +:+ NLI.

Definition research_subcategory (subcategory : string) : M (option string * list string) :=
  let search_query := subcategory +:+ " research paper academic source" in
  search_results ← google_search search_query;
  match search_results with
  | [] => mret (None, [])
  | _ :: _ =>
      let '(context_data, references) := extract search_results in
      let messages := Shared.user_message (prompt subcategory context_data) in
      response ← Shared.make_llm_request W messages "gpt-4o" "0.5" 2500;
      match dict_truthy response with
      | Some response =>
          data ← lift (as_str AttributeError (Shared.response_data response));
          let body_text := Py.strip data in
          mret (Some body_text, references)
      | None => mret (None, [])
      end
  end.

Definition main := Shared.main W research_subcategory.

End searched.
End Searched.

(** ** Scripted worlds, for running the model on concrete inputs *)

Definition count_posts (tr : trace) : nat := length (filter (λ e, is_post e) tr).
Definition is_get (e : event) : bool :=
  match e with EvGet _ => true | _ => false end.
Definition count_gets (tr : trace) : nat := length (filter (λ e, is_get e) tr).

(** A world whose [n]-th POST gets the [n]-th scripted answer and whose
    [n]-th GET gets the [n]-th scripted search result; calls beyond the
    script fail.  Every environment variable is set to ["k"]. *)
Definition scripted (posts : list (http_result (gmap string jval)))
    (gets : list (http_result search_data)) : world :=
  {| getenv := λ _, Some "k";
     http_post := λ tr _, default HttpError (posts !! count_posts tr);
     http_get := λ tr _, default HttpError (gets !! count_gets tr);
     now := λ _, "20250101_120000" |}.

Definition answer (text : string) : http_result (gmap string jval) :=
  HttpResponse 200 {[ "data" := JStr text ]}.

Definition work1 : work :=
  {| work_title := Some (JStr "Solar cells");
     work_authorships := Some [ {| authorship_author := Some {| display_name := Some (JStr "A. Green") |} |};
                                {| authorship_author := Some {| display_name := Some (JStr "B. Lee") |} |} ];
     work_doi := Some (JStr "https://doi.org/10.1/x");
     work_publication_year := Some (JInt 2020) |}.

Definition work2 : work :=
  {| work_title := Some (JStr "Wind"); work_authorships := None;
     work_doi := Some JNull; work_publication_year := None |}.

Definition found (ws : list work) : http_result search_data :=
  HttpResponse 200 {| data_results := Some ws; data_items := None |}.

Definition item1 : item :=
  {| item_title := Some (JStr "Solar power"); item_snippet := None;
     item_link := Some (JStr "https://example.org/solar") |}.

Definition found_items (items : list item) : http_result search_data :=
  HttpResponse 200 {| data_results := None; data_items := Some items |}.

(** The response text of the decomposer example. *)
Definition sample_response : string :=
  "1. Foo: bar" +:+ NL +:+ "2. **Baz**" +:+ NL +:+ "not a line" +:+ NL +:+ "3. Qux".

Definition seven_lines : string :=
  "1. a" +:+ NL +:+ "2. b" +:+ NL +:+ "3. c" +:+ NL +:+ "4. d" +:+ NL +:+
  "5. e" +:+ NL +:+ "6. f" +:+ NL +:+ "7. g".

(** The same world with another generative engine. *)
Definition with_post (W : world)
    (post : trace → post_request → http_result (gmap string jval)) : world :=
  {| getenv := getenv W; http_post := post; http_get := http_get W; now := now W |}.

(** ** Vocabulary of the statements *)

(** The results of researching the subcategories one after the other. *)
Fixpoint research_all (research : string → M (option string * list string))
    (subcategories : list string) : M (list (option string * list string)) :=
  match subcategories with
  | [] => mret []
  | subcategory :: rest =>
      r ← research subcategory;
      rs ← research_all research rest;
      mret (r :: rs)
  end.

(** The narratives that are present and non-empty, in order. *)
Definition kept_findings (rs : list (option string * list string)) : list string :=
  omap (λ r, match r.1 with
             | Some ((String _ _) as text) => Some text
             | _ => None
             end) rs.

(** The references of the results whose narrative is present and non-empty. *)
Definition kept_references (rs : list (option string * list string)) : list string :=
  mjoin (snd <$> filter (λ r, text_truthy r.1) rs).

(** The year part of a reference, in the words of the specification. *)
Definition year_text (result : work) : string :=
  match work_publication_year result with
  | None => "n.d."
  | Some year => py_str year
  end.

(** The DOI part of a reference: a space and the DOI, when the work has a
    DOI that is not empty. *)
Definition doi_suffix (result : work) : string :=
  match work_doi result with
  | Some doi => if py_bool doi then " " +:+ py_str doi else ""
  | None => ""
  end.

(** Every authorship of the work names its author by a string. *)
Definition authors_named (result : work) : Prop :=
  Forall (λ a, ∃ au name, authorship_author a = Some au ∧ display_name au = Some (JStr name))
         (default [] (work_authorships result)).

(** ** The capture of a numbered line, in the words of the specification

    A line is numbered when it begins with digits and a period; after the
    white space that follows, the capture runs up to the first colon, or to
    the end of the line when there is none. *)

Fixpoint until (p : ascii → bool) (s : string) : string :=
  match s with
  | EmptyString => EmptyString
  | String c s' => if p c then EmptyString else String c (until p s')
  end.

Definition numbered_capture (line : string) : option string :=
  match line with
  | String c _ =>
      if is_decimal c then
        match Py.lstrip_by is_decimal line with
        | String d rest =>
            if is_char "." d
            then Some (until (is_char ":") (Py.lstrip_by is_space rest))
            else None
        | EmptyString => None
        end
      else None
  | EmptyString => None
  end.

(** The continuation of the lazy group of the pattern: the optional colon
    clause, then the end of the subject. *)
Definition after_capture (f : string → string) (cap s4 : string) : option string :=
  Re.opt (λ s k, Re.chr (is_char ":"%char) s (λ s5, Re.star is_dot s5 k)) s4
    (λ s6, if Re.eos s6 then Some (f cap) else None).

Definition capture_label (line : string) : option string :=
  (λ group1, Py.strip_chars "**" (Py.strip group1)) <$> numbered_capture (Py.strip line).

(** [s] does not begin with a character of the class [p]. *)
Definition starts_clean (p : ascii → bool) (s : string) : Prop :=
  match s with
  | String c _ => p c = false
  | EmptyString => True
  end.

(** [s] does not end with a character of the class [p]. *)
Definition ends_clean (p : ascii → bool) (s : string) : Prop :=
  ∀ t c, s = t +:+ String c "" → p c = false.

(** ** What a computation adds to the trace *)

Definition is_write (e : event) : bool :=
  match e with
  | EvWrite _ _ | EvSaveDocx _ _ _ => true
  | _ => false
  end.

(** The file an event saves, if it saves one. *)
Definition saved_path (e : event) : option string :=
  match e with
  | EvWrite filename _ | EvSaveDocx filename _ _ => Some filename
  | _ => None
  end.

Definition no_write (evs : list event) : Prop := Forall (λ e, is_write e = false) evs.

(** [m] only appends to the trace, and its outcome together with what it
    appends satisfies [P]. *)
Definition runs {A} (m : M A) (P : outcome A → list event → Prop) : Prop :=
  ∀ tr, ∃ evs, (m tr).2 = tr ++ evs ∧ P (m tr).1 evs.

(** The outcome is not an exit of the interpreter. *)
Definition not_exit {A} (o : outcome A) : Prop := ∀ code, o ≠ Raise (SystemExit code).

(** The outcome is a value, or the exit with status 1. *)
Definition value_or_exit_1 {A} (o : outcome A) : Prop :=
  ∀ e, o = Raise e → e = SystemExit 1.

(** The extension that goes with a format token. *)
Definition extension (doc_format : string) : string :=
  if decide (doc_format = "txt") then ".txt"
  else if decide (doc_format = "md") then ".md"
  else ".docx".

(** A computation that saves no file and does not leave the interpreter. *)
Definition quiet {A} (o : outcome A) (evs : list event) : Prop :=
  not_exit o ∧ no_write evs.

(** The last thing that happened is that the file [path] was saved, and no
    other file was. *)
Definition saves_last (path : string) (evs : list event) : Prop :=
  ∃ before last, evs = before ++ [last] ∧ no_write before ∧ saved_path last = Some path.

(** [path] is [research_paper_<stamp><ext>]. *)
Definition named (ext path : string) : Prop :=
  ∃ stamp, path = "research_paper_" +:+ stamp +:+ ext.

(** What a document generator may do. *)
Definition generator_spec (ext : string) (o : outcome (option string))
    (evs : list event) : Prop :=
  not_exit o
  ∧ match o with
    | Ok (Some path) => saves_last path evs ∧ named ext path
    | _ => no_write evs
    end.

(** What the last stage of a run may do: return the path of the file it
    has just saved, or fail without saving, and then leave only with
    status 1. *)
Definition final_spec (ext : string) (o : outcome string) (evs : list event) : Prop :=
  match o with
  | Ok path => saves_last path evs ∧ named ext path
  | Raise e => no_write evs ∧ ∀ code, e = SystemExit code → code = 1%Z
  end.

(** What a whole run may do: return the path of the file it has just saved,
    whose extension is the format that was asked for, or end with exit
    status 1 without having saved anything. *)
Definition main_spec (doc_format : string) (o : outcome string) (evs : list event) : Prop :=
  match o with
  | Ok path =>
      saves_last path evs ∧ named ("." +:+ doc_format) path
      ∧ doc_format ∈ ["txt"; "md"; "docx"]
  | Raise e => e = SystemExit 1 ∧ no_write evs
  end.

(** The exit status that the [except] clauses of [main] give an exception. *)
Definition exit_status (e : exn) : Z :=
  match e with
  | SystemExit code => code
  | KeyboardInterrupt => 0
  | _ => 1
  end.

(** The model itself never raises [KeyboardInterrupt]. *)
Definition uninterrupted {A} (m : M A) : Prop :=
  ∀ tr, (m tr).1 ≠ Raise KeyboardInterrupt.

(** The ways in which a run of [main] that starts with the history [tr] can
    end.  Either nothing interrupts it.  Or a keyboard interrupt arrives
    after an initial part [evs] of what the undisturbed run would have
    done: the [try] block is left with [KeyboardInterrupt] and the
    [except] clauses decide. *)
Inductive main_ends (W : world) (research : string → M (option string * list string))
    (main_topic doc_format : string) (tr : trace) : outcome string * trace → Prop :=
  | ends_undisturbed :
      main_ends W research main_topic doc_format tr
        (Shared.main W research main_topic doc_format tr)
  | ends_interrupted (evs : list event) :
      tr ++ evs `prefix_of` (Shared.main_body W research main_topic doc_format tr).2 →
      main_ends W research main_topic doc_format tr
        (Shared.except_clauses (Raise KeyboardInterrupt, tr ++ evs)).

(** What the end of a run looks like: a path after the file was saved,
    exit status 1 with no file saved, or exit status 0 after an interrupt
    that left an initial part of the undisturbed run. *)
Definition main_ends_spec (W : world) (research : string → M (option string * list string))
    (main_topic doc_format : string) (tr : trace) (r : outcome string * trace) : Prop :=
  ∃ evs, r.2 = tr ++ evs
    ∧ match r.1 with
      | Ok path =>
          saves_last path evs ∧ named ("." +:+ doc_format) path
          ∧ doc_format ∈ ["txt"; "md"; "docx"]
      | Raise e =>
          (e = SystemExit 1 ∧ no_write evs)
          ∨ (e = SystemExit 0
             ∧ tr ++ evs `prefix_of` (Shared.main_body W research main_topic doc_format tr).2)
      end.

(** A work one of whose authors has no name. *)
Definition work_unnamed : work :=
  {| work_title := Some (JStr "Tides");
     work_authorships :=
       Some [ {| authorship_author := Some {| display_name := Some JNull |} |} ];
     work_doi := None;
     work_publication_year := Some (JInt 2021) |}.

(** The same world with other environment variables. *)
Definition with_getenv (W : world) (env : string → option string) : world :=
  {| getenv := env; http_post := http_post W; http_get := http_get W; now := now W |}.

(** The request that [make_llm_request] posts with the key [API_KEY]. *)
Definition chat_request (API_KEY : string) (messages : list message)
    (model temperature : string) (max_tokens : Z) : post_request :=
  {| post_url := "https://prod-api.vanderbilt.ai/chat";
     post_authorization := "Bearer " +:+ API_KEY;
     post_temperature := temperature;
     post_max_tokens := max_tokens;
     post_messages := messages;
     post_model := model;
     post_prompt := default "" (content <$> head (filter (λ msg, role msg = "user") messages)) |}.

(** * Properties *)

(** ** Stripping *)

Lemma app_cons c s t : String c s +:+ t = String c (s +:+ t).
Proof. reflexivity. Qed.

Lemma app_empty_l s : "" +:+ s = s.
Proof. reflexivity. Qed.

Section strip.
Variable p : ascii → bool.

Lemma lstrip_by_clean s : starts_clean p (Py.lstrip_by p s).
Proof.
  induction s as [|c s IH]; simpl; [done|].
  destruct (p c) eqn:Hc; [assumption|exact Hc].
Qed.

Lemma lstrip_by_id t : starts_clean p t → Py.lstrip_by p t = t.
Proof. destruct t as [|c t]; simpl; [done|]. by intros ->. Qed.

Lemma lstrip_by_split s : ∃ a, s = a +:+ Py.lstrip_by p s ∧ all_chars p a = true.
Proof.
  induction s as [|c s [a [Ha Hp]]]; simpl.
  - by exists "".
  - destruct (p c) eqn:Hc.
    + exists (String c a). rewrite app_cons, <- Ha. simpl. by rewrite Hc.
    + by exists "".
Qed.

Lemma rstrip_by_starts t : starts_clean p t → starts_clean p (Py.rstrip_by p t).
Proof.
  destruct t as [|c t]; simpl; [done|]. intros Hc.
  destruct (Py.rstrip_by p t); simpl; [by rewrite Hc|done].
Qed.

Lemma rstrip_by_idem t : Py.rstrip_by p (Py.rstrip_by p t) = Py.rstrip_by p t.
Proof.
  induction t as [|c t IH]; simpl; [done|].
  destruct (Py.rstrip_by p t) as [|d r] eqn:Hr.
  - destruct (p c) eqn:Hc; simpl; [done|by rewrite Hc].
  - change (Py.rstrip_by p (String c (String d r))) with
      (match Py.rstrip_by p (String d r) with
       | EmptyString => if p c then EmptyString else String c EmptyString
       | r' => String c r'
       end).
    by rewrite IH.
Qed.

Lemma rstrip_by_split s : ∃ b, s = Py.rstrip_by p s +:+ b ∧ all_chars p b = true.
Proof.
  induction s as [|c s [b [Hb Hp]]]; simpl.
  - by exists "".
  - destruct (Py.rstrip_by p s) as [|d r] eqn:Hr.
    + destruct (p c) eqn:Hc.
      * exists (String c s). split; [done|]. simpl. rewrite Hc. simpl.
        rewrite Hb. exact Hp.
      * exists b. split; [|done]. rewrite app_cons. by rewrite <- Hb.
    + exists b. split; [|done]. rewrite app_cons. by rewrite <- Hb.
Qed.

Lemma rstrip_by_clean s : ends_clean p (Py.rstrip_by p s).
Proof.
  induction s as [|c s IH]; intros t a; simpl.
  - destruct t; discriminate.
  - destruct (Py.rstrip_by p s) as [|d r] eqn:Hr.
    + destruct (p c) eqn:Hc.
      * destruct t; discriminate.
      * destruct t as [|? [|]]; intros [=]; by subst.
    + destruct t as [|c' t]; [discriminate|].
      rewrite app_cons. intros [= -> Ht]. by apply (IH t a).
Qed.

Lemma strip_by_idem s : Py.strip_by p (Py.strip_by p s) = Py.strip_by p s.
Proof.
  unfold Py.strip_by.
  rewrite (lstrip_by_id (Py.rstrip_by p (Py.lstrip_by p s))).
  - apply rstrip_by_idem.
  - apply rstrip_by_starts, lstrip_by_clean.
Qed.

(** What [strip_by] removes and what it leaves. *)
Lemma strip_by_spec s :
  ∃ a b, s = a +:+ Py.strip_by p s +:+ b
         ∧ all_chars p a = true ∧ all_chars p b = true
         ∧ starts_clean p (Py.strip_by p s) ∧ ends_clean p (Py.strip_by p s).
Proof.
  destruct (lstrip_by_split s) as [a [Ha Hpa]].
  destruct (rstrip_by_split (Py.lstrip_by p s)) as [b [Hb Hpb]].
  exists a, b. unfold Py.strip_by. repeat split; try done.
  - by rewrite <- Hb.
  - apply rstrip_by_starts, lstrip_by_clean.
  - apply rstrip_by_clean.
Qed.
End strip.

Lemma strip_idem s : Py.strip (Py.strip s) = Py.strip s.
Proof. apply strip_by_idem. Qed.

Lemma truthy_true s : Py.truthy s = true ↔ s ≠ "".
Proof. destruct s; simpl; split; try done. Qed.

Lemma truthy_Is_true s : Is_true (Py.truthy s) ↔ s ≠ "".
Proof. rewrite Is_true_true. apply truthy_true. Qed.

(** ** The reference consolidator *)

Lemma elem_of_stripped_refs X s :
  s ∈ stripped_refs X ↔ s ≠ "" ∧ ∃ r, r ∈ X ∧ Py.strip r = s.
Proof.
  unfold stripped_refs. rewrite elem_of_list_to_set, list_elem_of_fmap. split.
  - intros [r [-> Hr]]. apply list_elem_of_filter in Hr as [Ht Hr].
    apply truthy_Is_true in Ht. eauto.
  - intros [Hs [r [Hr <-]]]. exists r. split; [done|].
    apply list_elem_of_filter. split; [|done]. by apply truthy_Is_true.
Qed.

Lemma sorted_Sorted l : Sorted String.le (sorted l).
Proof. apply Sorted_merge_sort; apply _. Qed.

Lemma sorted_Permutation l : sorted l ≡ₚ l.
Proof. apply merge_sort_Permutation. Qed.

Lemma sorted_fixed l : Sorted String.le l → sorted l = l.
Proof.
  intros Hl. apply (Sorted_unique String.le); [apply sorted_Sorted|done|].
  apply sorted_Permutation.
Qed.

(** Sorting makes the listing order of the set irrelevant. *)
Lemma consolidate_any_listing X l :
  l ≡ₚ elements (stripped_refs X) → sorted l = consolidate X.
Proof.
  intros Hl. unfold consolidate.
  apply (Sorted_unique String.le); [apply sorted_Sorted..|].
  by rewrite !sorted_Permutation.
Qed.

Lemma elem_of_consolidate X s :
  s ∈ consolidate X ↔ s ≠ "" ∧ ∃ r, r ∈ X ∧ Py.strip r = s.
Proof.
  unfold consolidate. rewrite sorted_Permutation, elem_of_elements.
  apply elem_of_stripped_refs.
Qed.

Lemma NoDup_consolidate X : NoDup (consolidate X).
Proof. unfold consolidate. rewrite sorted_Permutation. apply NoDup_elements. Qed.

(** C3. For every list of reference strings, [consolidate] returns the
    trimmed, non-empty entries, each exactly once, in ascending
    lexicographic order: the result is sorted, has no duplicates, and
    contains a string exactly when it is non-empty and is the trimmed form
    of some entry.  On the three-entry example of the specification the
    result is the two-entry list stated there. *)
Theorem consolidate_spec (X : list string) :
  StronglySorted String.le (consolidate X)
  ∧ NoDup (consolidate X)
  ∧ (∀ s, s ∈ consolidate X ↔ s ≠ "" ∧ ∃ r, r ∈ X ∧ Py.strip r = s)
  ∧ consolidate ["A. 2020. T."; " A. 2020. T. "; "B. 2019. U."]
    = ["A. 2020. T."; "B. 2019. U."].
Proof.
  split; [|split; [|split]].
  - apply Sorted_StronglySorted; [apply _|]. apply sorted_Sorted.
  - apply NoDup_consolidate.
  - apply elem_of_consolidate.
  - vm_compute. reflexivity.
Qed.

(** C4. Consolidating an already consolidated list changes nothing. *)
Theorem consolidate_idempotent (X : list string) :
  consolidate (consolidate X) = consolidate X.
Proof.
  set (L := consolidate X).
  assert (Hfix : ∀ s, s ∈ L → Py.strip s = s ∧ s ≠ "").
  { intros s [Hne [r [_ <-]]]%elem_of_consolidate. split; [apply strip_idem|done]. }
  assert (Hperm : elements (stripped_refs L) ≡ₚ L).
  { apply NoDup_Permutation; [apply NoDup_elements|apply NoDup_consolidate|].
    intros s. rewrite elem_of_elements, elem_of_stripped_refs. split.
    - intros [_ [r [Hr <-]]]. by rewrite (proj1 (Hfix r Hr)).
    - intros Hs. destruct (Hfix s Hs). eauto. }
  unfold consolidate at 1. fold L.
  apply (Sorted_unique String.le); [apply sorted_Sorted..|].
  by rewrite sorted_Permutation, Hperm.
Qed.

(** ** The pattern of numbered lines *)

Section star.
Context {R : Type} (p : ascii → bool).

(** A greedy star first offers its continuation the rest after all the
    characters of the class. *)
Lemma star_longest s (k : string → option R) r :
  k (Py.lstrip_by p s) = Some r → Re.star p s k = Some r.
Proof.
  induction s as [|c s IH]; simpl; [done|].
  destruct (p c); [|done]. intros Hk. by rewrite (IH Hk).
Qed.

(** It fails when the continuation fails there and at every shorter
    attempt, which leaves a character of the class in front. *)
Lemma star_fails s (k : string → option R) :
  k (Py.lstrip_by p s) = None →
  (∀ c t, p c = true → k (String c t) = None) →
  Re.star p s k = None.
Proof.
  intros Hlast Hshort. induction s as [|c s IH]; simpl in *; [done|].
  destruct (p c) eqn:Hc; [|done]. rewrite (IH Hlast). by apply Hshort.
Qed.

Lemma lstrip_by_all s : all_chars p s = true → Py.lstrip_by p s = "".
Proof.
  induction s as [|c s IH]; simpl; [done|].
  intros [-> Hs]%andb_true_iff. by apply IH.
Qed.

Lemma all_chars_lstrip_by q s :
  all_chars q s = true → all_chars q (Py.lstrip_by p s) = true.
Proof.
  induction s as [|c s IH]; simpl; [done|].
  intros [Hc Hs]%andb_true_iff. destruct (p c); [by apply IH|].
  simpl. by rewrite Hc, Hs.
Qed.

Lemma all_chars_rstrip_by q s :
  all_chars q s = true → all_chars q (Py.rstrip_by p s) = true.
Proof.
  induction s as [|c s IH]; simpl; [done|].
  intros [Hc Hs]%andb_true_iff. specialize (IH Hs).
  destruct (Py.rstrip_by p s) as [|d r].
  - destruct (p c); simpl; [done|by rewrite Hc].
  - simpl in *. by rewrite Hc, IH.
Qed.
End star.

Lemma is_dot_not_LF c : is_dot c = true → Ascii.eqb c LF = false.
Proof. unfold is_dot. by intros ->%negb_true_iff. Qed.

Lemma star_lazy_until s : ∀ f,
  all_chars is_dot s = true →
  Re.star_lazy is_dot s (after_capture f) = Some (f (until (is_char ":"%char) s)).
Proof.
  induction s as [|c s IH]; intros f; [done|].
  intros [Hc Hs]%andb_true_iff.
  cbn [Re.star_lazy until]. unfold after_capture at 1, Re.opt, Re.chr.
  destruct (is_char ":"%char c) eqn:Hcolon.
  - rewrite (star_longest is_dot s _ (f "")); [done|].
    by rewrite (lstrip_by_all _ _ Hs).
  - assert (Re.eos (String c s) = false) as ->.
    { simpl. destruct s; [apply is_dot_not_LF, Hc|done]. }
    rewrite Hc. apply (IH (λ cap, f (String c cap)) Hs).
Qed.

(** On a subject without line feed the backtracking matcher computes the
    capture that the specification describes. *)
Lemma match_numbered_capture line :
  all_chars is_dot line = true → match_numbered line = numbered_capture line.
Proof.
  unfold match_numbered, numbered_capture, Re.plus.
  destruct line as [|c s]; [done|]. intros [Hc Hs]%andb_true_iff.
  cbn [Re.chr Py.lstrip_by]. destruct (is_decimal c) eqn:Hdigit; [|done].
  pose proof (all_chars_lstrip_by is_decimal is_dot s Hs) as Hrest.
  destruct (Py.lstrip_by is_decimal s) as [|d rest] eqn:Hstrip.
  - apply star_fails; [by rewrite Hstrip|].
    intros c' t Hc'. cbn [Re.chr].
    by destruct c' as [[] [] [] [] [] [] [] []].
  - destruct (is_char "."%char d) eqn:Hd.
    + apply star_longest. rewrite Hstrip. cbn [Re.chr]. rewrite Hd.
      apply star_longest.
      apply (star_lazy_until _ id).
      apply all_chars_lstrip_by. simpl in Hrest.
      by apply andb_true_iff in Hrest as [_ ?].
    + apply star_fails; [rewrite Hstrip; cbn [Re.chr]; by rewrite Hd|].
      intros c' t Hc'. cbn [Re.chr].
      by destruct c' as [[] [] [] [] [] [] [] []].
Qed.

Lemma split_no_sep sep s :
  Forall (λ w, all_chars (λ c, negb (Ascii.eqb c sep)) w = true) (Py.split sep s).
Proof.
  induction s as [|c s IH]; simpl; [by repeat constructor|].
  destruct (Ascii.eqb c sep) eqn:Hc; [by constructor|].
  destruct (Py.split sep s) as [|w ws]; [by repeat constructor; simpl; rewrite Hc|].
  apply Forall_cons in IH as [Hw Hws]. constructor; [|done].
  simpl. by rewrite Hc, Hw.
Qed.

Lemma numbered_label_capture line :
  all_chars is_dot line = true → numbered_label line = capture_label line.
Proof.
  intros Hline. unfold numbered_label, capture_label.
  rewrite match_numbered_capture; [done|].
  by apply all_chars_rstrip_by, all_chars_lstrip_by.
Qed.

(** ** The decomposer *)

Lemma parse_line_label acc line :
  parse_line acc line = acc ++ option_list (numbered_label line).
Proof.
  unfold parse_line, numbered_label.
  destruct (match_numbered (Py.strip line)); simpl; [done|].
  by rewrite app_nil_r.
Qed.

Lemma parse_subcategories_labels raw :
  parse_subcategories raw = omap numbered_label (Py.split LF raw).
Proof.
  unfold parse_subcategories.
  enough (H : ∀ l acc, foldl parse_line acc l = acc ++ omap numbered_label l)
    by apply (H _ []).
  induction l as [|line l IH]; intros acc; simpl.
  - by rewrite app_nil_r.
  - rewrite IH, parse_line_label.
    destruct (numbered_label line); simpl; [by rewrite <- app_assoc|].
    by rewrite app_nil_r.
Qed.

Lemma bind_Ok {A B} (m : M A) (f : A → M B) tr a tr' :
  m tr = (Ok a, tr') → (m ≫= f) tr = f a tr'.
Proof. intros H. unfold mbind, M_bind. by rewrite H. Qed.

Lemma bind_Raise {A B} (m : M A) (f : A → M B) tr e tr' :
  m tr = (Raise e, tr') → (m ≫= f) tr = (Raise e, tr').
Proof. intros H. unfold mbind, M_bind. by rewrite H. Qed.

Lemma bind_Ok_inv {A B} (m : M A) (f : A → M B) tr b tr' :
  (m ≫= f) tr = (Ok b, tr') → ∃ a tr1, m tr = (Ok a, tr1) ∧ f a tr1 = (Ok b, tr').
Proof.
  unfold mbind, M_bind. destruct (m tr) as [[a|e] tr1]; [|done]. eauto.
Qed.

Lemma dict_truthy_data d v : d !! "data" = Some v → dict_truthy (Some d) = Some d.
Proof.
  intros Hd. unfold dict_truthy. destruct (decide (d = ∅)) as [->|]; [|done].
  by rewrite lookup_empty in Hd.
Qed.

Lemma response_data_lookup (d : gmap string jval) v :
  d !! "data" = Some v → Shared.response_data d = v.
Proof. intros Hd. unfold Shared.response_data. by rewrite Hd. Qed.

(** The parser skips the lines that are not numbered and returns, in order,
    the cleaned captures of those that are. *)
Lemma parse_subcategories_capture raw :
  parse_subcategories raw = omap capture_label (Py.split LF raw).
Proof.
  rewrite parse_subcategories_labels.
  induction (split_no_sep LF raw) as [|line l Hline _ IH]; [done|].
  csimpl. by rewrite IH, (numbered_label_capture line Hline).
Qed.

(** What [generate_subcategories] returns once the engine has answered with
    the text [raw]. *)
Lemma generate_subcategories_run W topic tr d raw tr' :
  Shared.make_llm_request W (Shared.user_message (Shared.decompose_prompt topic))
    "gpt-4o-mini" "0.4" 200 tr = (Ok (Some d), tr') →
  d !! "data" = Some (JStr raw) →
  Shared.generate_subcategories W topic tr =
    (Ok (match parse_subcategories (Py.strip raw) with
         | [] => None
         | l => Some l
         end), tr').
Proof.
  intros Hcall Hd. unfold Shared.generate_subcategories.
  rewrite (bind_Ok _ _ _ _ _ Hcall), (dict_truthy_data _ _ Hd).
  rewrite (response_data_lookup _ _ Hd). simpl.
  unfold mbind, M_bind, lift.
  by destruct (parse_subcategories (Py.strip raw)).
Qed.

(** C2. The parser skips the lines that are not numbered and returns, in
    order, the captures of the numbered ones (the text after the digits,
    the period and the white space, up to the first colon) without
    surrounding white space and asterisks.  On the response text of the
    specification it returns the three labels Foo, Baz, Qux in this order,
    and so does [generate_subcategories] whenever the engine answers with
    that text. *)
Theorem decomposer_example W topic tr d tr' :
  Shared.make_llm_request W (Shared.user_message (Shared.decompose_prompt topic))
    "gpt-4o-mini" "0.4" 200 tr = (Ok (Some d), tr') →
  d !! "data" = Some (JStr sample_response) →
  (∀ raw, parse_subcategories raw = omap capture_label (Py.split LF raw))
  ∧ parse_subcategories sample_response = ["Foo"; "Baz"; "Qux"]
  ∧ Shared.generate_subcategories W topic tr = (Ok (Some ["Foo"; "Baz"; "Qux"]), tr').
Proof.
  intros Hcall Hd. split; [apply parse_subcategories_capture|].
  split; [by vm_compute|].
  by rewrite (generate_subcategories_run _ _ _ _ _ _ Hcall Hd).
Qed.

Lemma decomposer_example_witness :
  let W := scripted [answer sample_response] [] in
  parse_subcategories sample_response = ["Foo"; "Baz"; "Qux"]
  ∧ Shared.generate_subcategories W "Energy" [] =
      (Ok (Some ["Foo"; "Baz"; "Qux"]),
       snd (Shared.generate_subcategories W "Energy" [])).
Proof.
  intros W.
  apply (decomposer_example W "Energy" [] {[ "data" := JStr sample_response ]}).
  - reflexivity.
  - reflexivity.
Defined.

(** C6. A response none of whose lines matches the numbered-list pattern
    makes [generate_subcategories] return [None]; the function never
    returns an empty list as a success; and when lines do match, the labels
    of all of them are returned, however many there are (seven numbered
    lines give seven labels). *)
Theorem decomposer_needs_a_match W topic tr d raw tr' :
  Shared.make_llm_request W (Shared.user_message (Shared.decompose_prompt topic))
    "gpt-4o-mini" "0.4" 200 tr = (Ok (Some d), tr') →
  d !! "data" = Some (JStr raw) →
  ((∀ line, line ∈ Py.split LF (Py.strip raw) → match_numbered (Py.strip line) = None) →
     Shared.generate_subcategories W topic tr = (Ok None, tr'))
  ∧ Shared.generate_subcategories W topic tr ≠ (Ok (Some []), tr')
  ∧ (∀ labels, labels = omap numbered_label (Py.split LF (Py.strip raw)) →
       labels ≠ [] →
       Shared.generate_subcategories W topic tr = (Ok (Some labels), tr'))
  ∧ length (parse_subcategories seven_lines) = 7.
Proof.
  intros Hcall Hd.
  rewrite (generate_subcategories_run _ _ _ _ _ _ Hcall Hd).
  rewrite parse_subcategories_labels.
  split; [|split; [|split]].
  - intros Hnone.
    enough (omap numbered_label (Py.split LF (Py.strip raw)) = []) as -> by done.
    induction (Py.split LF (Py.strip raw)) as [|line l IH]; [done|]. simpl.
    unfold numbered_label at 1. rewrite Hnone by left. simpl.
    apply IH. intros ? ?. apply Hnone. by right.
  - by destruct (omap numbered_label (Py.split LF (Py.strip raw))).
  - intros labels -> Hne.
    by destruct (omap numbered_label (Py.split LF (Py.strip raw))).
  - by vm_compute.
Qed.

Lemma decomposer_needs_a_match_witness :
  let W := scripted [answer "no list here"] [] in
  Shared.generate_subcategories W "Energy" [] =
    (Ok None, snd (Shared.generate_subcategories W "Energy" [])).
Proof.
  intros W.
  apply (decomposer_needs_a_match W "Energy" [] {[ "data" := JStr "no list here" ]}
           "no list here").
  - reflexivity.
  - reflexivity.
  - intros line Hline. vm_compute in Hline.
    apply list_elem_of_singleton in Hline as ->. reflexivity.
Defined.

Lemma mem_asterisks c : Py.mem c "**" = true ↔ c = "*"%char.
Proof.
  simpl. rewrite orb_false_r, orb_diag. apply Ascii.eqb_eq.
Qed.

Lemma strip_by_all p s : all_chars p s = true → Py.strip_by p s = "".
Proof. intros Hs. unfold Py.strip_by. by rewrite (lstrip_by_all _ _ Hs). Qed.

(** A numbered line whose content is empty or made of asterisks only
    contributes the empty label. *)
Lemma numbered_label_empty line group1 :
  match_numbered (Py.strip line) = Some group1 →
  all_chars (λ c, Py.mem c "**") (Py.strip group1) = true →
  numbered_label line = Some "".
Proof.
  intros Hm Hall. unfold numbered_label. rewrite Hm.
  change (Some (Py.strip_chars "**" (Py.strip group1)) = Some "").
  unfold Py.strip_chars. by rewrite (strip_by_all _ _ Hall).
Qed.

(** C10. The label cleanup removes every leading and every trailing
    asterisk, paired or not: the characters removed on either side are all
    asterisks and what is left neither starts nor ends with one (so
    [***Foo*] becomes [Foo]); a text made of asterisks only is cleaned to
    the empty text.  Every numbered line whose content is empty or made of
    asterisks only gives the empty label, which is appended like any
    other, wherever the line stands: when the answer of the engine has
    such a line, the decomposition succeeds and the empty label is among
    the labels it returns.  The answers [1. ] and [1. **] both give the
    empty label alone. *)
Theorem label_cleanup_asterisks W topic tr d raw tr' :
  Shared.make_llm_request W (Shared.user_message (Shared.decompose_prompt topic))
    "gpt-4o-mini" "0.4" 200 tr = (Ok (Some d), tr') →
  d !! "data" = Some (JStr raw) →
  (∀ c, Py.mem c "**" = true ↔ c = "*"%char)
  ∧ (∀ s, ∃ a b, s = a +:+ Py.strip_chars "**" s +:+ b
            ∧ all_chars (λ c, Py.mem c "**") a = true
            ∧ all_chars (λ c, Py.mem c "**") b = true
            ∧ starts_clean (λ c, Py.mem c "**") (Py.strip_chars "**" s)
            ∧ ends_clean (λ c, Py.mem c "**") (Py.strip_chars "**" s))
  ∧ Py.strip_chars "**" "***Foo*" = "Foo"
  ∧ (∀ s, all_chars (λ c, Py.mem c "**") s = true → Py.strip_chars "**" s = "")
  ∧ (∀ acc line group1,
       match_numbered (Py.strip line) = Some group1 →
       all_chars (λ c, Py.mem c "**") (Py.strip group1) = true →
       parse_line acc line = acc ++ [""])
  ∧ (∀ line group1,
       line ∈ Py.split LF (Py.strip raw) →
       match_numbered (Py.strip line) = Some group1 →
       all_chars (λ c, Py.mem c "**") (Py.strip group1) = true →
       ∃ labels,
         Shared.generate_subcategories W topic tr = (Ok (Some labels), tr')
         ∧ labels = omap numbered_label (Py.split LF (Py.strip raw))
         ∧ "" ∈ labels)
  ∧ (raw = "1. " ∨ raw = "1. **" →
     Shared.generate_subcategories W topic tr = (Ok (Some [""]), tr')).
Proof.
  intros Hcall Hd. split; [|split; [|split; [|split; [|split; [|split]]]]].
  - apply mem_asterisks.
  - intros s. apply strip_by_spec.
  - reflexivity.
  - intros s. apply strip_by_all.
  - intros acc line group1 Hm Hall.
    by rewrite parse_line_label, (numbered_label_empty _ _ Hm Hall).
  - intros line group1 Hline Hm Hall.
    assert (Hin : "" ∈ omap numbered_label (Py.split LF (Py.strip raw))).
    { apply list_elem_of_omap. exists line. split; [exact Hline|].
      by eapply numbered_label_empty. }
    exists (omap numbered_label (Py.split LF (Py.strip raw))).
    split; [|by split].
    rewrite (generate_subcategories_run _ _ _ _ _ _ Hcall Hd), parse_subcategories_labels.
    destruct (omap numbered_label (Py.split LF (Py.strip raw))); [|done].
    by apply elem_of_nil in Hin.
  - intros Hraw. rewrite (generate_subcategories_run _ _ _ _ _ _ Hcall Hd).
    by destruct Hraw as [-> | ->].
Qed.

Lemma label_cleanup_asterisks_witness :
  let raw := "1. Sun: light" +:+ NL +:+ "intro" +:+ NL +:+ "2. ** : x" +:+ NL +:+ "3. **Wind**" in
  let W := scripted [answer raw] [] in
  Shared.generate_subcategories W "Energy" [] =
    (Ok (Some ["Sun"; ""; "Wind"]), snd (Shared.generate_subcategories W "Energy" [])).
Proof.
  intros raw W.
  destruct (label_cleanup_asterisks W "Energy" [] {[ "data" := JStr raw ]} raw
              (snd (Shared.generate_subcategories W "Energy" [])))
    as (_ & _ & _ & _ & _ & Hlabels & _).
  - reflexivity.
  - reflexivity.
  - destruct (Hlabels "2. ** : x" "** ") as (labels & Hgen & Heq & _).
    + by apply (list_elem_of_lookup_2 _ 2).
    + reflexivity.
    + reflexivity.
    + rewrite Heq in Hgen. exact Hgen.
Defined.

(** ** The subcategory researcher *)

Lemma openalex_search_trace W query limit mailto tr :
  ∃ results req,
    OpenAlex.openalex_search W query limit mailto tr = (Ok results, tr ++ [EvGet req]).
Proof.
  unfold OpenAlex.openalex_search, Shared.requests_get, mbind, M_bind.
  destruct (http_get W tr _) as [|status data]; [by eexists _, _|].
  destruct (OpenAlex.raise_for_status status); by eexists _, _.
Qed.

Lemma filter_post_get tr req :
  filter (λ e, is_post e) (tr ++ [EvGet req]) = filter (λ e, is_post e) tr.
Proof. rewrite filter_app. simpl. apply app_nil_r. Qed.

(** What [research_subcategory] of openAlex.py returns when the search has
    found works whose reference strings could be built. *)
Lemma research_subcategory_found W subcategory tr results tr1 ctx refs response tr2 :
  OpenAlex.openalex_search W (subcategory +:+ " research paper") 5
    (getenv W "OPENALEX_EMAIL") tr = (Ok results, tr1) →
  results ≠ [] →
  OpenAlex.extract results = Ok (ctx, refs) →
  Shared.make_llm_request W (Shared.user_message (OpenAlex.prompt subcategory ctx))
    "gpt-4o" "0.5" 2500 tr1 = (Ok response, tr2) →
  OpenAlex.research_subcategory W subcategory tr =
    match dict_truthy response with
    | Some d =>
        match Shared.response_data d with
        | JStr data => (Ok (Some (Py.strip data), refs), tr2)
        | _ => (Raise AttributeError, tr2)
        end
    | None => (Ok (None, []), tr2)
    end.
Proof.
  intros Hsearch Hne Hext Hcall. unfold OpenAlex.research_subcategory.
  rewrite (bind_Ok _ _ _ _ _ Hsearch).
  destruct results as [|w ws]; [done|].
  rewrite Hext. unfold mbind at 1, M_bind at 1, lift at 1.
  rewrite (bind_Ok _ _ _ _ _ Hcall).
  destruct (dict_truthy response) as [d|]; [|done].
  by destruct (Shared.response_data d).
Qed.

Lemma searched_research_subcategory_found W subcategory tr results tr1 response tr2 :
  Searched.google_search W (subcategory +:+ " research paper academic source") tr
    = (Ok results, tr1) →
  results ≠ [] →
  Shared.make_llm_request W
    (Shared.user_message (Searched.prompt subcategory (Searched.extract results).1))
    "gpt-4o" "0.5" 2500 tr1 = (Ok response, tr2) →
  Searched.research_subcategory W subcategory tr =
    match dict_truthy response with
    | Some d =>
        match Shared.response_data d with
        | JStr data => (Ok (Some (Py.strip data), (Searched.extract results).2), tr2)
        | _ => (Raise AttributeError, tr2)
        end
    | None => (Ok (None, []), tr2)
    end.
Proof.
  intros Hsearch Hne Hcall. unfold Searched.research_subcategory.
  rewrite (bind_Ok _ _ _ _ _ Hsearch).
  destruct results as [|w ws]; [done|].
  destruct (Searched.extract (w :: ws)) as [ctx refs]. simpl in Hcall.
  rewrite (bind_Ok _ _ _ _ _ Hcall).
  destruct (dict_truthy response) as [d|]; [|done].
  by destruct (Shared.response_data d).
Qed.

(** An exception while the reference strings are built leaves
    [research_subcategory] before the engine is called. *)
Lemma research_subcategory_extraction_raises W subcategory tr results tr1 e :
  OpenAlex.openalex_search W (subcategory +:+ " research paper") 5
    (getenv W "OPENALEX_EMAIL") tr = (Ok results, tr1) →
  results ≠ [] →
  OpenAlex.extract results = Raise e →
  OpenAlex.research_subcategory W subcategory tr = (Raise e, tr1).
Proof.
  intros Hsearch Hne Hext. unfold OpenAlex.research_subcategory.
  rewrite (bind_Ok _ _ _ _ _ Hsearch).
  destruct results as [|w ws]; [done|].
  apply bind_Raise. by rewrite Hext.
Qed.

(** Whatever is raised inside [main] ends the run with an exit status: the
    one of [sys.exit], 0 for a keyboard interrupt, 1 for any other
    exception. *)
Lemma main_exit_status W research main_topic doc_format tr e tr' :
  Shared.main_body W research main_topic doc_format tr = (Raise e, tr') →
  Shared.main W research main_topic doc_format tr =
    (Raise (SystemExit (exit_status e)), tr').
Proof. intros H. unfold Shared.main. rewrite H. by destruct e. Qed.

(** The web-search variant stops in the same way when nothing is found. *)
Lemma searched_no_evidence_short_circuit W subcategory tr tr1 :
  Searched.google_search W (subcategory +:+ " research paper academic source") tr
    = (Ok [], tr1) →
  Searched.research_subcategory W subcategory tr = (Ok (None, []), tr1).
Proof.
  intros Hsearch. unfold Searched.research_subcategory.
  by rewrite (bind_Ok _ _ _ _ _ Hsearch).
Qed.

(** C1, as the code has it.  In both variants, when the search has found
    records and the synthesis call fails (no response, or an empty one),
    [research_subcategory] returns [None] with the empty list: the
    references extracted before the call are not returned. *)
Theorem failed_synthesis_returns_no_references W subcategory tr :
  (∀ results tr1 ctx refs response tr2,
     OpenAlex.openalex_search W (subcategory +:+ " research paper") 5
       (getenv W "OPENALEX_EMAIL") tr = (Ok results, tr1) →
     results ≠ [] →
     OpenAlex.extract results = Ok (ctx, refs) →
     Shared.make_llm_request W (Shared.user_message (OpenAlex.prompt subcategory ctx))
       "gpt-4o" "0.5" 2500 tr1 = (Ok response, tr2) →
     dict_truthy response = None →
     OpenAlex.research_subcategory W subcategory tr = (Ok (None, []), tr2))
  ∧ (∀ results tr1 response tr2,
       Searched.google_search W (subcategory +:+ " research paper academic source") tr
         = (Ok results, tr1) →
       results ≠ [] →
       Shared.make_llm_request W
         (Shared.user_message (Searched.prompt subcategory (Searched.extract results).1))
         "gpt-4o" "0.5" 2500 tr1 = (Ok response, tr2) →
       dict_truthy response = None →
       Searched.research_subcategory W subcategory tr = (Ok (None, []), tr2)).
Proof.
  split.
  - intros results tr1 ctx refs response tr2 Hsearch Hne Hext Hcall Hfail.
    rewrite (research_subcategory_found _ _ _ _ _ _ _ _ _ Hsearch Hne Hext Hcall).
    by rewrite Hfail.
  - intros results tr1 response tr2 Hsearch Hne Hcall Hfail.
    rewrite (searched_research_subcategory_found _ _ _ _ _ _ _ Hsearch Hne Hcall).
    by rewrite Hfail.
Qed.

Lemma failed_synthesis_returns_no_references_witness :
  let W := scripted [HttpError] [found [work1]] in
  let W' := scripted [HttpError] [found_items [item1]] in
  OpenAlex.research_subcategory W "Solar" [] =
    (Ok (None, []), snd (OpenAlex.research_subcategory W "Solar" []))
  ∧ Searched.research_subcategory W' "Solar" [] =
    (Ok (None, []), snd (Searched.research_subcategory W' "Solar" [])).
Proof.
  intros W W'. split.
  - apply (proj1 (failed_synthesis_returns_no_references W "Solar" []) [work1]
             (snd (OpenAlex.openalex_search W "Solar research paper" 5 (Some "k") []))
             (fst (default ("", []) (match OpenAlex.extract [work1] with Ok x => Some x | _ => None end)))
             (snd (default ("", []) (match OpenAlex.extract [work1] with Ok x => Some x | _ => None end)))
             None).
    + reflexivity.
    + discriminate.
    + reflexivity.
    + reflexivity.
    + reflexivity.
  - apply (proj2 (failed_synthesis_returns_no_references W' "Solar" []) [item1]
             (snd (Searched.google_search W' "Solar research paper academic source" []))
             None).
    + reflexivity.
    + discriminate.
    + reflexivity.
    + reflexivity.
Defined.

(** C1 as stated does not hold: in a run where the search finds one work
    and the synthesis call fails, the reference extracted from that work is
    not part of what [research_subcategory] returns. *)
Lemma failed_synthesis_keeps_references_refuted :
  ¬ (∀ W subcategory tr results tr1 ctx refs response tr2,
       OpenAlex.openalex_search W (subcategory +:+ " research paper") 5
         (getenv W "OPENALEX_EMAIL") tr = (Ok results, tr1) →
       results ≠ [] →
       OpenAlex.extract results = Ok (ctx, refs) →
       Shared.make_llm_request W (Shared.user_message (OpenAlex.prompt subcategory ctx))
         "gpt-4o" "0.5" 2500 tr1 = (Ok response, tr2) →
       dict_truthy response = None →
       OpenAlex.research_subcategory W subcategory tr = (Ok (None, refs), tr2)).
Proof.
  intros H.
  assert (Hx : ∃ refs tr2,
    OpenAlex.research_subcategory (scripted [HttpError] [found [work1]]) "Solar" []
      = (Ok (None, refs), tr2) ∧ refs ≠ []).
  { eexists _, _. split.
    - eapply (H _ _ _ [work1] _ _ _ None);
        [reflexivity|discriminate|reflexivity|vm_compute; reflexivity|reflexivity].
    - discriminate. }
  destruct Hx as (refs & tr2 & Heq & Hne).
  vm_compute in Heq. injection Heq as <- _. by apply Hne.
Qed.

(** C5. When the search returns no record, [research_subcategory] returns
    [None] with the empty list; the only interaction it has had is the
    search request, so the trace holds no new request to the engine, and
    the outcome is the same with any other engine. *)
Theorem no_evidence_short_circuit W subcategory tr tr1 :
  OpenAlex.openalex_search W (subcategory +:+ " research paper") 5
    (getenv W "OPENALEX_EMAIL") tr = (Ok [], tr1) →
  OpenAlex.research_subcategory W subcategory tr = (Ok (None, []), tr1)
  ∧ (∃ req, tr1 = tr ++ [EvGet req])
  ∧ filter (λ e, is_post e) tr1 = filter (λ e, is_post e) tr
  ∧ (∀ engine,
       OpenAlex.research_subcategory (with_post W engine) subcategory tr
       = (Ok (None, []), tr1)).
Proof.
  intros Hsearch.
  assert (Htr : ∃ req, tr1 = tr ++ [EvGet req]).
  { destruct (openalex_search_trace W (subcategory +:+ " research paper") 5
                (getenv W "OPENALEX_EMAIL") tr) as [results [req Hr]].
    rewrite Hsearch in Hr. injection Hr as _ ->. by exists req. }
  split; [|split; [done|split]].
  - unfold OpenAlex.research_subcategory. by rewrite (bind_Ok _ _ _ _ _ Hsearch).
  - destruct Htr as [req ->]. apply filter_post_get.
  - intros engine. unfold OpenAlex.research_subcategory.
    change (OpenAlex.openalex_search (with_post W engine)) with (OpenAlex.openalex_search W).
    change (getenv (with_post W engine)) with (getenv W).
    by rewrite (bind_Ok _ _ _ _ _ Hsearch).
Qed.

Lemma no_evidence_short_circuit_witness :
  let W := scripted [answer "unused"] [found []] in
  OpenAlex.research_subcategory W "Solar" [] =
    (Ok (None, []), snd (OpenAlex.openalex_search W "Solar research paper" 5 (Some "k") [])).
Proof.
  intros W.
  apply (no_evidence_short_circuit W "Solar" []).
  reflexivity.
Defined.

(** ** Reference extraction (openAlex.py) *)

Lemma app_assoc_str (a b c : string) : (a +:+ b) +:+ c = a +:+ b +:+ c.
Proof. induction a as [|x a IH]; [done|]. by rewrite !app_cons, IH. Qed.

Lemma app_empty_r (a : string) : a +:+ "" = a.
Proof. induction a as [|x a IH]; [done|]. by rewrite app_cons, IH. Qed.

(** The reference string in the layout the specification describes. *)
Lemma ref_string_format names result :
  OpenAlex.ref_string names result =
    names +:+ " (" +:+ year_text result +:+ "). " +:+
    py_str (get (work_title result)) +:+ "." +:+ doi_suffix result.
Proof.
  unfold OpenAlex.ref_string, OpenAlex.year_field, year_text, doi_suffix, get, get_or.
  destruct (work_publication_year result) as [year|],
           (work_doi result) as [doi|]; simpl;
    try destruct (py_bool doi); rewrite ?app_assoc_str, ?app_empty_r; reflexivity.
Qed.

Lemma strs_of_named (items : list jval) :
  Forall (λ v, ∃ s, v = JStr s) items → ∃ ss, strs_of items = Ok ss.
Proof.
  induction 1 as [|v items [s ->] _ [ss IH]]; [by exists []|].
  exists (s :: ss). simpl. unfold mbind, outcome_bind. by rewrite IH.
Qed.

Lemma author_names_total result :
  authors_named result → ∃ names, OpenAlex.author_names result = Ok names.
Proof.
  unfold authors_named, OpenAlex.author_names, py_join. intros Hall.
  destruct (strs_of_named
    ((λ a, get (display_name (default {| display_name := None |} (authorship_author a))))
       <$> default [] (work_authorships result))) as [ss Hss].
  - apply Forall_fmap. eapply Forall_impl; [exact Hall|].
    intros a (au & name & Hau & Hname). simpl. rewrite Hau. simpl.
    rewrite Hname. by exists name.
  - exists (Py.join ", " ss). unfold mbind, outcome_bind. by rewrite Hss.
Qed.

Lemma extract_from results : ∀ ctx0 refs0 ctx refs,
  foldl_outcome OpenAlex.extract_step (ctx0, refs0) results = Ok (ctx, refs) →
  ∃ new, refs = refs0 ++ new ∧ length new = length results
    ∧ ∀ i result, results !! i = Some result →
        ∃ names, OpenAlex.author_names result = Ok names
                 ∧ new !! i = Some (OpenAlex.ref_string names result).
Proof.
  induction results as [|w ws IH]; intros ctx0 refs0 ctx refs; simpl.
  - intros [= <- <-]. exists []. by rewrite app_nil_r.
  - unfold mbind at 1, outcome_bind at 1, OpenAlex.extract_step at 1.
    unfold mbind at 1, outcome_bind at 1.
    destruct (OpenAlex.author_names w) as [names|e] eqn:Hnames; [|done].
    intros Hrest. apply IH in Hrest as (new & -> & Hlen & Hnth).
    exists (OpenAlex.ref_string names w :: new). split; [by rewrite <- app_assoc|].
    split; [by rewrite length_cons, Hlen|].
    intros [|i] result; simpl.
    + intros [= <-]. by exists names.
    + apply Hnth.
Qed.

Lemma extract_total results : ∀ acc,
  Forall authors_named results →
  ∃ ctx refs, foldl_outcome OpenAlex.extract_step acc results = Ok (ctx, refs).
Proof.
  induction results as [|w ws IH]; intros [ctx0 refs0] Hall; simpl.
  - by exists ctx0, refs0.
  - apply Forall_cons in Hall as [Hw Hws].
    destruct (author_names_total w Hw) as [names Hnames].
    unfold mbind at 1, outcome_bind at 1, OpenAlex.extract_step at 1.
    unfold mbind at 1, outcome_bind at 1. rewrite Hnames. by apply IH.
Qed.

Lemma strs_of_Ok_named (items : list jval) ss :
  strs_of items = Ok ss → Forall (λ v, ∃ s, v = JStr s) items.
Proof.
  revert ss. induction items as [|v items IH]; intros ss; simpl; [by constructor|].
  unfold mbind, outcome_bind. destruct v; simpl; try done.
  destruct (strs_of items) as [ss'|] eqn:Hss; [|done]. intros _.
  constructor; [by eexists|by eapply IH].
Qed.

Lemma author_names_Ok_named result names :
  OpenAlex.author_names result = Ok names → authors_named result.
Proof.
  unfold authors_named, OpenAlex.author_names, py_join, mbind, outcome_bind.
  destruct (strs_of _) as [ss|] eqn:Hss; [|done]. intros _.
  apply strs_of_Ok_named in Hss.
  rewrite Forall_fmap in Hss.
  eapply Forall_impl; [exact Hss|]. intros a [s Hs]. simpl in Hs.
  destruct (authorship_author a) as [au|]; simpl in Hs; [|done].
  destruct (display_name au) as [v|] eqn:Hv; simpl in Hs; [|done].
  subst v. by exists au, s.
Qed.

Lemma extract_Ok_named results : ∀ acc ctx refs,
  foldl_outcome OpenAlex.extract_step acc results = Ok (ctx, refs) →
  Forall authors_named results.
Proof.
  induction results as [|w ws IH]; intros [ctx0 refs0] ctx refs; simpl; [by constructor|].
  unfold mbind at 1, outcome_bind at 1, OpenAlex.extract_step at 1.
  unfold mbind at 1, outcome_bind at 1.
  destruct (OpenAlex.author_names w) as [names|e] eqn:Hnames; [|done].
  intros Hrest. constructor; [by eapply author_names_Ok_named|by eapply IH].
Qed.




(** ** The per-subcategory loop *)

Lemma kept_findings_cons r rs :
  kept_findings (r :: rs) =
    match r.1 with
    | Some ((String _ _) as text) => text :: kept_findings rs
    | _ => kept_findings rs
    end.
Proof. unfold kept_findings. simpl. by destruct r as [[[|c t]|] refs]. Qed.

Lemma kept_references_cons r rs :
  kept_references (r :: rs) =
    if text_truthy r.1 then r.2 ++ kept_references rs else kept_references rs.
Proof.
  unfold kept_references. destruct (text_truthy r.1) eqn:Ht.
  - by rewrite filter_cons_True by by rewrite Ht.
  - by rewrite filter_cons_False by (rewrite Ht; intros []).
Qed.

Lemma research_all_cons research s subs tr rs tr' :
  research_all research (s :: subs) tr = (Ok rs, tr') →
  ∃ r rs' tr1, research s tr = (Ok r, tr1)
    ∧ research_all research subs tr1 = (Ok rs', tr') ∧ rs = r :: rs'.
Proof.
  simpl. intros (r & tr1 & Hr & H)%bind_Ok_inv.
  apply bind_Ok_inv in H as (rs' & tr2 & Hall & [= <- <-]).
  by exists r, rs', tr1.
Qed.

Lemma research_all_length research subcategories : ∀ tr rs tr',
  research_all research subcategories tr = (Ok rs, tr') →
  length rs = length subcategories.
Proof.
  induction subcategories as [|s subs IH]; intros tr rs tr'.
  - by intros [= <- _].
  - intros (r & rs' & tr1 & _ & Hall & ->)%research_all_cons.
    simpl. f_equal. by eapply IH.
Qed.

Lemma research_step_run research findings refs s tr r tr1 :
  research s tr = (Ok r, tr1) →
  Shared.research_step research (findings, refs) s tr =
    (Ok (findings ++ kept_findings [r], refs ++ kept_references [r]), tr1).
Proof.
  intros Hr. unfold Shared.research_step. rewrite (bind_Ok _ _ _ _ _ Hr).
  rewrite kept_findings_cons, kept_references_cons.
  destruct r as [[[|c t]|] references]; simpl;
    unfold kept_references; simpl; by rewrite ?app_nil_r.
Qed.

Lemma research_loop_from research subcategories : ∀ findings refs tr rs tr',
  research_all research subcategories tr = (Ok rs, tr') →
  foldlM (Shared.research_step research) (findings, refs) subcategories tr =
    (Ok (findings ++ kept_findings rs, refs ++ kept_references rs), tr').
Proof.
  induction subcategories as [|s subs IH]; intros findings refs tr rs tr'.
  - intros [= <- <-]. unfold kept_references. simpl. by rewrite !app_nil_r.
  - intros (r & rs' & tr1 & Hr & Hall & ->)%research_all_cons.
    cbn [foldlM].
    rewrite (bind_Ok _ _ _ _ _ (research_step_run _ findings refs _ _ _ _ Hr)).
    rewrite (IH _ _ _ _ _ Hall).
    rewrite (kept_findings_cons r rs'), (kept_references_cons r rs').
    rewrite (kept_findings_cons r []), (kept_references_cons r []).
    destruct r as [[[|c t]|] references]; simpl;
      unfold kept_references; simpl; by rewrite <- ?app_assoc, ?app_nil_r.
Qed.

Lemma kept_findings_nil rs :
  kept_findings rs = [] ↔ Forall (λ r, text_truthy r.1 = false) rs.
Proof.
  induction rs as [|r rs IH]; [by split|].
  rewrite kept_findings_cons, Forall_cons, <- IH.
  destruct r as [[[|c t]|] refs]; simpl; intuition congruence.
Qed.

Lemma elem_of_kept_references rs x :
  x ∈ kept_references rs → ∃ r, r ∈ rs ∧ text_truthy r.1 = true ∧ x ∈ r.2.
Proof.
  unfold kept_references. intros (l & Hx & Hl)%list_elem_of_join.
  apply list_elem_of_fmap in Hl as (r & -> & Hr).
  apply list_elem_of_filter in Hr as [Ht Hr].
  exists r. split; [done|]. split; [|done]. by apply Is_true_true.
Qed.

Lemma bind_Raise_inv {A B} (m : M A) (f : A → M B) tr e tr' :
  (m ≫= f) tr = (Raise e, tr') →
  m tr = (Raise e, tr') ∨ ∃ a tr1, m tr = (Ok a, tr1) ∧ f a tr1 = (Raise e, tr').
Proof.
  unfold mbind, M_bind. destruct (m tr) as [[a|e0] tr1]; [eauto|]. intros [= <- <-]. by left.
Qed.

Lemma research_loop_raises research subcategories : ∀ acc tr e tr',
  research_all research subcategories tr = (Raise e, tr') →
  foldlM (Shared.research_step research) acc subcategories tr = (Raise e, tr').
Proof.
  induction subcategories as [|s subs IH]; intros [findings refs] tr e tr'; [done|].
  cbn [research_all foldlM]. intros [Hr|(r & tr1 & Hr & Hrest)]%bind_Raise_inv.
  - apply bind_Raise. unfold Shared.research_step. by apply bind_Raise.
  - rewrite (bind_Ok _ _ _ _ _ (research_step_run _ findings refs _ _ _ _ Hr)).
    apply IH. apply bind_Raise_inv in Hrest as [Hrest|(rs & tr2 & _ & [=])]. exact Hrest.
Qed.

(** Once the checks have passed and the decomposer has given subcategories,
    the [try] block of [main] is the loop followed by the coalescer. *)
Lemma main_body_reaches_loop W research main_topic doc_format tr0 key subcategories tr :
  Shared.validate_api_key W = Some key →
  main_topic ≠ "" →
  doc_format ∈ ["txt"; "md"; "docx"] →
  Shared.generate_subcategories W main_topic tr0 = (Ok (Some subcategories), tr) →
  subcategories ≠ [] →
  Shared.main_body W research main_topic doc_format tr0 =
    Shared.research_and_coalesce W research main_topic doc_format subcategories tr.
Proof.
  intros Hkey Htopic Hfmt Hgen Hne. unfold Shared.main_body. rewrite Hkey.
  apply truthy_true in Htopic. rewrite Htopic. simpl.
  rewrite (bool_decide_eq_true_2 _ Hfmt). simpl.
  rewrite (bind_Ok _ _ _ _ _ Hgen). by destruct subcategories.
Qed.

(** C7 as stated does not hold: a subcategory can have produced a
    non-empty narrative and the run still stops in the loop, because the
    research of a later subcategory raised an exception (here a work whose
    author has no name). *)
Lemma a_raising_call_stops_the_loop :
  ¬ (∀ W s subs tr text refs tr1,
       OpenAlex.research_subcategory W s tr = (Ok (Some text, refs), tr1) →
       text ≠ "" →
       ∃ findings all_references tr',
         Shared.research_loop (OpenAlex.research_subcategory W) (s :: subs) tr
           = (Ok (findings, all_references), tr')
         ∧ findings ≠ []).
Proof.
  intros H.
  pose (W := scripted [answer "n1"] [found [work1]; found [work_unnamed]]).
  assert (Hrun : OpenAlex.research_subcategory W "Foo" [] =
            (Ok (Some "n1", ["A. Green, B. Lee (2020). Solar cells. https://doi.org/10.1/x"]),
             (OpenAlex.research_subcategory W "Foo" []).2)) by (by vm_compute).
  destruct (H W "Foo" ["Baz"] [] _ _ _ Hrun) as (findings & refs & tr' & Hloop & _);
    [discriminate|].
  vm_compute in Hloop. discriminate Hloop.
Qed.

(** C7, as the code has it.  Let the subcategories be researched one after
    the other.  When every call returns, with results [rs]: the loop has
    visited every subcategory; it keeps the non-empty narratives in order
    and skips the results whose narrative is absent or empty; the
    accumulated references are those of the kept results only; the run
    stops with exit status 1 at this stage when every result was skipped,
    and goes on to the coalescer with the kept narratives and references
    when some result was kept.  When a call raises an exception, the loop
    stops at that call, nothing is coalesced, and the [except] clauses of
    [main] end the run with the exit status of that exception (1 for an
    ordinary exception), whatever the earlier subcategories produced. *)
Theorem failed_subcategories_are_skipped W research main_topic doc_format
    subcategories tr :
  (∀ rs tr',
     research_all research subcategories tr = (Ok rs, tr') →
     length rs = length subcategories
     ∧ Shared.research_loop research subcategories tr =
         (Ok (kept_findings rs, kept_references rs), tr')
     ∧ (∀ x, x ∈ kept_references rs → ∃ r, r ∈ rs ∧ text_truthy r.1 = true ∧ x ∈ r.2)
     ∧ (Forall (λ r, text_truthy r.1 = false) rs →
          Shared.research_and_coalesce W research main_topic doc_format subcategories tr
          = (Raise (SystemExit 1), tr'))
     ∧ (Exists (λ r, text_truthy r.1 = true) rs →
          Shared.research_and_coalesce W research main_topic doc_format subcategories tr
          = Shared.coalesce W main_topic doc_format (kept_findings rs) (kept_references rs) tr'))
  ∧ (∀ e tr',
       research_all research subcategories tr = (Raise e, tr') →
       Shared.research_loop research subcategories tr = (Raise e, tr')
       ∧ Shared.research_and_coalesce W research main_topic doc_format subcategories tr
         = (Raise e, tr')
       ∧ (∀ key tr0,
            Shared.validate_api_key W = Some key →
            main_topic ≠ "" →
            doc_format ∈ ["txt"; "md"; "docx"] →
            Shared.generate_subcategories W main_topic tr0 = (Ok (Some subcategories), tr) →
            subcategories ≠ [] →
            Shared.main W research main_topic doc_format tr0
            = (Raise (SystemExit (exit_status e)), tr'))).
Proof.
  split.
  - intros rs tr' Hall.
    assert (Hloop : Shared.research_loop research subcategories tr =
                      (Ok (kept_findings rs, kept_references rs), tr')).
    { unfold Shared.research_loop. by rewrite (research_loop_from _ _ [] [] _ _ _ Hall). }
    split; [by eapply research_all_length|]. split; [exact Hloop|].
    split; [apply elem_of_kept_references|]. split.
    + intros Hfail. apply kept_findings_nil in Hfail.
      unfold Shared.research_and_coalesce.
      rewrite (bind_Ok _ _ _ _ _ Hloop). by rewrite Hfail.
    + intros Hsome.
      unfold Shared.research_and_coalesce. rewrite (bind_Ok _ _ _ _ _ Hloop).
      destruct (kept_findings rs) eqn:Hkept; [|done].
      apply kept_findings_nil in Hkept. apply Exists_exists in Hsome as (r & Hr & Ht).
      rewrite Forall_forall in Hkept. specialize (Hkept r Hr). congruence.
  - intros e tr' Hall.
    assert (Hloop : Shared.research_loop research subcategories tr = (Raise e, tr')).
    { unfold Shared.research_loop. by apply research_loop_raises. }
    assert (Hstage : Shared.research_and_coalesce W research main_topic doc_format
                       subcategories tr = (Raise e, tr')).
    { unfold Shared.research_and_coalesce. by apply bind_Raise. }
    split; [exact Hloop|]. split; [exact Hstage|].
    intros key tr0 Hkey Htopic Hfmt Hgen Hne. apply main_exit_status.
    by rewrite (main_body_reaches_loop _ _ _ _ _ _ _ _ Hkey Htopic Hfmt Hgen Hne).
Qed.

Lemma failed_subcategories_are_skipped_witness :
  let W := scripted [answer "n1"; HttpError; answer "n3"]
                    [found [work1]; found [work2]; found []] in
  let W' := scripted [answer ("1. Foo: x" +:+ NL +:+ "2. Baz"); answer "n1"]
                     [found [work1]; found [work_unnamed]] in
  Shared.research_loop (OpenAlex.research_subcategory W) ["Foo"; "Baz"; "Qux"] [] =
    (Ok (["n1"], ["A. Green, B. Lee (2020). Solar cells. https://doi.org/10.1/x"]),
     snd (research_all (OpenAlex.research_subcategory W) ["Foo"; "Baz"; "Qux"] []))
  ∧ OpenAlex.main W' "Energy" "md" [] =
      (Raise (SystemExit 1),
       snd (research_all (OpenAlex.research_subcategory W') ["Foo"; "Baz"]
              (snd (Shared.generate_subcategories W' "Energy" [])))).
Proof.
  intros W W'. split.
  - apply (proj1 (failed_subcategories_are_skipped W (OpenAlex.research_subcategory W)
                    "Energy" "md" ["Foo"; "Baz"; "Qux"] [])
             [(Some "n1", ["A. Green, B. Lee (2020). Solar cells. https://doi.org/10.1/x"]);
              (None, []); (None, [])]).
    vm_compute. reflexivity.
  - apply (proj2 (proj2 (proj2 (failed_subcategories_are_skipped W'
                    (OpenAlex.research_subcategory W') "Energy" "md" ["Foo"; "Baz"]
                    (snd (Shared.generate_subcategories W' "Energy" [])))
                    TypeError _ ltac:(vm_compute; reflexivity))) "k" []).
    + reflexivity.
    + discriminate.
    + rewrite !elem_of_cons. right. by left.
    + vm_compute. reflexivity.
    + discriminate.
Defined.

(** ** The Markdown document *)

(** C8. When the coalescing call answers with a non-empty text, the
    Markdown generator writes one file whose content is that text, then the
    References heading between blank lines, then the consolidated
    references (sorted, without duplicates), one bullet per line; the whole
    body precedes the references. *)
Theorem markdown_document_layout W main_topic research_findings all_references
    tr d body tr1 :
  Shared.make_llm_request W
    (Shared.user_message
       (Shared.markdown_prompt main_topic (Py.join (NL +:+ NL) research_findings)))
    "gpt-4o" "0.6" 4000 tr = (Ok (Some d), tr1) →
  d !! "data" = Some (JStr body) →
  body ≠ "" →
  let filename := "research_paper_" +:+ now W tr1 +:+ ".md" in
  let heading := NL +:+ NL +:+ "## References" +:+ NL +:+ NL in
  let bullets := (λ ref, "- " +:+ ref) <$> consolidate all_references in
  Shared.generate_markdown_document W main_topic research_findings all_references tr =
    (Ok (Some filename),
     tr1 ++ [EvWrite filename (body +:+ heading +:+ Py.join NL bullets)])
  ∧ length bullets = length (consolidate all_references)
  ∧ StronglySorted String.le (consolidate all_references)
  ∧ NoDup (consolidate all_references).
Proof.
  intros Hcall Hd Hbody filename heading bullets.
  split; [|split; [apply length_fmap|split; [|apply NoDup_consolidate]]];
    [|apply Sorted_StronglySorted; [apply _|apply sorted_Sorted]].
  unfold Shared.generate_markdown_document.
  rewrite (bind_Ok _ _ _ _ _ Hcall), (dict_truthy_data _ _ Hd).
  rewrite (response_data_lookup _ _ Hd). simpl.
  apply truthy_true in Hbody. by rewrite Hbody.
Qed.

Lemma markdown_document_layout_witness :
  let W := scripted [answer "# Paper"] [] in
  Shared.generate_markdown_document W "Energy" ["n1"] ["b"; " a "; "b "] [] =
    (Ok (Some "research_paper_20250101_120000.md"),
     snd (Shared.make_llm_request W
            (Shared.user_message (Shared.markdown_prompt "Energy" "n1"))
            "gpt-4o" "0.6" 4000 []) ++
     [EvWrite "research_paper_20250101_120000.md"
        ("# Paper" +:+ NL +:+ NL +:+ "## References" +:+ NL +:+ NL +:+ "- a" +:+ NL +:+ "- b")]).
Proof.
  intros W.
  apply (markdown_document_layout W "Energy" ["n1"] ["b"; " a "; "b "] []
           {[ "data" := JStr "# Paper" ]} "# Paper").
  - reflexivity.
  - reflexivity.
  - discriminate.
Defined.

(** * Further properties of the code *)

(** ** The engine call *)

(** X1. Without a usable AMPLIFY_API_KEY (unset, or set to the empty
    string) [make_llm_request] returns [None] and sends nothing. *)
Theorem make_llm_request_without_key W messages model temperature max_tokens tr :
  getenv W "AMPLIFY_API_KEY" = None ∨ getenv W "AMPLIFY_API_KEY" = Some "" →
  Shared.make_llm_request W messages model temperature max_tokens tr = (Ok None, tr).
Proof.
  intros Hkey. unfold Shared.make_llm_request, Shared.validate_api_key, Shared.getenv_truthy.
  by destruct Hkey as [-> | ->].
Qed.

Lemma make_llm_request_without_key_witness :
  let W := with_getenv (scripted [answer "text"] []) (λ _, Some "") in
  Shared.make_llm_request W (Shared.user_message "hello") "gpt-4o" "0.5" 10 [] = (Ok None, []).
Proof.
  intros W. apply (make_llm_request_without_key W). by right.
Defined.

(** X2. With a key, [make_llm_request] makes exactly one attempt: it
    appends one POST to the chat endpoint, authorised by the key, and
    returns the body of the answer exactly when the answer has status 200;
    a transport error and every other status give [None]. *)
Theorem make_llm_request_single_attempt W messages model temperature max_tokens tr key :
  getenv W "AMPLIFY_API_KEY" = Some key →
  key ≠ "" →
  let req := chat_request key messages model temperature max_tokens in
  ∃ response,
    Shared.make_llm_request W messages model temperature max_tokens tr
      = (Ok response, tr ++ [EvPost req])
    ∧ (∀ body, response = Some body ↔ http_post W tr req = HttpResponse 200 body)
    ∧ (http_post W tr req = HttpError → response = None)
    ∧ (∀ status body, http_post W tr req = HttpResponse status body →
         status ≠ 200%Z → response = None).
Proof.
  intros Hkey Hne req.
  unfold Shared.make_llm_request, Shared.validate_api_key, Shared.getenv_truthy.
  rewrite Hkey. apply truthy_true in Hne. rewrite Hne.
  unfold mbind, M_bind, Shared.post. subst req. unfold chat_request.
  destruct (http_post W tr _) as [|status body] eqn:Hpost.
  - exists None. repeat split; try done.
  - destruct (Z.eqb_spec status 200) as [->|Hstatus].
    + exists (Some body). repeat split; try done; intros; by simplify_eq.
    + exists None. repeat split; try done. intros; by simplify_eq.
Qed.

Lemma make_llm_request_single_attempt_witness :
  let W := scripted [HttpResponse 503 ∅] [] in
  ∃ response,
    Shared.make_llm_request W (Shared.user_message "hello") "gpt-4o" "0.5" 10 []
      = (Ok response, [] ++ [EvPost (chat_request "k" (Shared.user_message "hello") "gpt-4o" "0.5" 10)])
    ∧ response = None.
Proof.
  intros W.
  destruct (make_llm_request_single_attempt W (Shared.user_message "hello")
              "gpt-4o" "0.5" 10 [] "k") as (response & Hrun & _ & _ & Hstatus).
  - reflexivity.
  - discriminate.
  - exists response. split; [exact Hrun|].
    apply (Hstatus 503%Z ∅); [reflexivity|discriminate].
Defined.

(** ** The two searches *)

(** X3. [openalex_search] makes exactly one GET, to the works address,
    with the query among its parameters and with the polite-pool address
    exactly when one is given and is not empty.  A transport error and an
    answer with a status in 400..599 both give the empty list.  An answer
    with another status, whose body is the JSON object [data], gives the
    list that [data] holds under 'results', and the empty list when
    [data] has no such key. *)
Theorem openalex_search_errors_are_empty W query limit mailto tr :
  ∃ req,
    get_url req = "https://api.openalex.org/works"
    ∧ ("search", query) ∈ get_params req
    ∧ (∀ m, ("mailto", m) ∈ get_params req ↔ mailto = Some m ∧ m ≠ "")
    ∧ (OpenAlex.openalex_search W query limit mailto tr).2 = tr ++ [EvGet req]
    ∧ (http_get W tr req = HttpError →
         (OpenAlex.openalex_search W query limit mailto tr).1 = Ok [])
    ∧ (∀ status data, http_get W tr req = HttpResponse status data →
         (400 ≤ status < 600)%Z →
         (OpenAlex.openalex_search W query limit mailto tr).1 = Ok [])
    ∧ (∀ status data results, http_get W tr req = HttpResponse status data →
         ¬ (400 ≤ status < 600)%Z →
         (data_results data = Some results →
            (OpenAlex.openalex_search W query limit mailto tr).1 = Ok results)
         ∧ (data_results data = None →
            (OpenAlex.openalex_search W query limit mailto tr).1 = Ok [])).
Proof.
  unfold OpenAlex.openalex_search, Shared.requests_get, mbind, M_bind.
  match goal with |- context [http_get W tr ?r] => set (req := r) end.
  assert (Hparams : ∀ m, ("mailto", m) ∈ get_params req ↔ mailto = Some m ∧ m ≠ "").
  { intros m. subst req. cbn [get_params]. rewrite elem_of_app.
    assert (H3 : ("mailto", m) ∉
      [("search", query); ("per-page", py_str (JInt limit));
       ("select", "id,doi,title,authorships,cited_by_count,publication_year")]).
    { rewrite !not_elem_of_cons. repeat split; try discriminate. by intros ?%elem_of_nil. }
    destruct mailto as [[|c t]|]; rewrite ?list_elem_of_singleton, ?elem_of_nil.
    - split; [by intros [?|[]]|]. by intros [[= <-] ?].
    - split; [|intros [[= <-] _]; by right].
      intros [?|[= ->]]; [done|]. by split.
    - split; [by intros [?|[]]|]. by intros [? _]. }
  assert (Hsearch : ("search", query) ∈ get_params req).
  { subst req. cbn [get_params]. apply elem_of_app. left. by left. }
  exists req. split; [reflexivity|]. split; [exact Hsearch|]. split; [exact Hparams|].
  destruct (http_get W tr req) as [|status data] eqn:Hget.
  - split; [reflexivity|]. split; [reflexivity|]. split; intros; discriminate.
  - unfold OpenAlex.raise_for_status.
    split; [by destruct ((400 <=? status) && (status <? 600))%Z|].
    split; [discriminate|]. split.
    + intros status' data' [= <- <-] [Hlo Hhi].
      apply Z.leb_le in Hlo. apply Z.ltb_lt in Hhi. by rewrite Hlo, Hhi.
    + intros status' data' results [= <- <-] Hout.
      assert (Hb : ((400 <=? status) && (status <? 600))%Z = false).
      { apply not_true_is_false. intros [Hlo Hhi]%andb_true_iff.
        apply Z.leb_le in Hlo. apply Z.ltb_lt in Hhi. by apply Hout. }
      rewrite Hb. split; intros ->; reflexivity.
Qed.

(** X4. [google_search] sends nothing and returns the empty list unless
    both GOOGLE_SEARCH_API_KEY and GOOGLE_CSE_ID are set and not empty;
    with both it makes exactly one GET, whose address carries the key, the
    engine id and the query as they are, and it never raises. *)
Theorem google_search_needs_both_keys W query tr :
  (Searched.validate_google_search_api_key W = None →
     Searched.google_search W query tr = (Ok [], tr))
  ∧ (∀ api_key cse_id,
       getenv W "GOOGLE_SEARCH_API_KEY" = Some api_key → api_key ≠ "" →
       getenv W "GOOGLE_CSE_ID" = Some cse_id → cse_id ≠ "" →
       ∃ results,
         Searched.google_search W query tr =
           (Ok results,
            tr ++ [EvGet {| get_url := "https://www.googleapis.com/customsearch/v1?key=" +:+
                                       api_key +:+ "&cx=" +:+ cse_id +:+ "&q=" +:+ query;
                           get_params := [] |}]))
  ∧ (Searched.validate_google_search_api_key W = None ↔
       ¬ (∃ api_key cse_id, getenv W "GOOGLE_SEARCH_API_KEY" = Some api_key ∧ api_key ≠ ""
                            ∧ getenv W "GOOGLE_CSE_ID" = Some cse_id ∧ cse_id ≠ "")).
Proof.
  split; [|split].
  - intros Hnone. unfold Searched.google_search. by rewrite Hnone.
  - intros api_key cse_id Hk Hkne Hc Hcne.
    unfold Searched.google_search, Searched.validate_google_search_api_key,
      Shared.getenv_truthy.
    rewrite Hk, Hc. apply truthy_true in Hkne, Hcne. rewrite Hkne, Hcne.
    unfold Shared.requests_get, mbind, M_bind.
    destruct (http_get W tr _) as [|status data]; [by eexists|].
    destruct (OpenAlex.raise_for_status status); by eexists.
  - unfold Searched.validate_google_search_api_key, Shared.getenv_truthy.
    destruct (getenv W "GOOGLE_SEARCH_API_KEY") as [[|c t]|],
             (getenv W "GOOGLE_CSE_ID") as [[|c' t']|]; simpl;
      split; try done; try (intros _ (? & ? & ? & ? & ? & ?); by simplify_eq).
    intros H. exfalso. apply H. by eexists _, _.
Qed.

Lemma google_search_needs_both_keys_witness :
  let W := with_getenv (scripted [] [found_items [item1]])
             (λ name, if decide (name = "GOOGLE_CSE_ID") then None else Some "k") in
  Searched.google_search W "solar" [] = (Ok [], []).
Proof.
  intros W. apply (google_search_needs_both_keys W "solar" []). reflexivity.
Defined.

(** ** The subcategory researcher: what it returns and what it sends *)

Lemma make_llm_request_shape W messages model temperature max_tokens tr :
  ∃ response evs,
    Shared.make_llm_request W messages model temperature max_tokens tr
      = (Ok response, tr ++ evs)
    ∧ ((evs = [] ∧ response = None) ∨ ∃ req, evs = [EvPost req]).
Proof.
  unfold Shared.make_llm_request.
  destruct (Shared.validate_api_key W) as [key|].
  - unfold mbind, M_bind, Shared.post.
    destruct (http_post W tr _) as [|status body]; [by eexists None, _; eauto|].
    destruct (status =? 200)%Z; eexists _, _; eauto.
  - exists None, []. rewrite app_nil_r. eauto.
Qed.

Lemma strs_of_raises items e : strs_of items = Raise e → e = TypeError.
Proof.
  induction items as [|v items IH]; simpl; [done|].
  unfold mbind, outcome_bind. destruct v; simpl; try by intros [= <-].
  destruct (strs_of items); [done|]. intros [= <-]. by apply IH.
Qed.

Lemma extract_raises results e : ∀ acc,
  foldl_outcome OpenAlex.extract_step acc results = Raise e → e = TypeError.
Proof.
  induction results as [|w ws IH]; intros [ctx refs]; simpl; [done|].
  unfold mbind at 1, outcome_bind at 1, OpenAlex.extract_step at 1.
  unfold mbind at 1, outcome_bind at 1.
  destruct (OpenAlex.author_names w) as [names|e'] eqn:Hnames.
  - apply IH.
  - intros [= <-]. unfold OpenAlex.author_names, py_join, mbind, outcome_bind in Hnames.
    destruct (strs_of _) eqn:Hs; [done|]. injection Hnames as <-.
    by eapply strs_of_raises.
Qed.

Lemma strip_clean s :
  starts_clean is_space (Py.strip s) ∧ ends_clean is_space (Py.strip s).
Proof. destruct (strip_by_spec is_space s) as (a & b & _ & _ & _ & Hs & He). done. Qed.

(** X5. Every call of [research_subcategory] of openAlex.py makes one GET
    and then at most one POST, and nothing else.  When it returns a
    narrative, the engine was called and the narrative has no white space
    at either end; when it returns no narrative, it returns no reference
    either; when it raises, the exception is a [TypeError] raised before
    the engine is called, or an [AttributeError]. *)
Theorem research_subcategory_outcomes W subcategory tr :
  ∃ req posts,
    (OpenAlex.research_subcategory W subcategory tr).2 = tr ++ EvGet req :: posts
    ∧ (posts = [] ∨ ∃ p, posts = [EvPost p])
    ∧ match (OpenAlex.research_subcategory W subcategory tr).1 with
      | Ok (Some text, refs) =>
          (∃ p, posts = [EvPost p])
          ∧ starts_clean is_space text ∧ ends_clean is_space text
      | Ok (None, refs) => refs = []
      | Raise e => (e = TypeError ∧ posts = []) ∨ e = AttributeError
      end.
Proof.
  destruct (openalex_search_trace W (subcategory +:+ " research paper") 5
              (getenv W "OPENALEX_EMAIL") tr) as (results & req & Hsearch).
  exists req.
  destruct (OpenAlex.research_subcategory W subcategory tr) as [o tr'] eqn:Hrun.
  cbn [fst snd]. unfold OpenAlex.research_subcategory in Hrun.
  rewrite (bind_Ok _ _ _ _ _ Hsearch) in Hrun.
  destruct results as [|w ws].
  { injection Hrun as <- <-. exists []. eauto. }
  unfold OpenAlex.extract in Hrun.
  destruct (foldl_outcome OpenAlex.extract_step ("", []) (w :: ws))
    as [[ctx refs]|e] eqn:Hext.
  - unfold mbind at 1, M_bind at 1, lift at 1 in Hrun.
    destruct (make_llm_request_shape W
                (Shared.user_message (OpenAlex.prompt subcategory ctx))
                "gpt-4o" "0.5" 2500 (tr ++ [EvGet req]))
      as (response & posts & Hcall & Hposts).
    rewrite (bind_Ok _ _ _ _ _ Hcall), <- app_assoc in Hrun. exists posts.
    assert (Hshape : posts = [] ∨ ∃ p, posts = [EvPost p]).
    { destruct Hposts as [[-> _]|Hp]; [by left|by right]. }
    destruct (dict_truthy response) as [d|] eqn:Htruthy.
    + assert (∃ p, posts = [EvPost p]) as Hp.
      { destruct Hposts as [[_ ->]|Hp]; [discriminate Htruthy|exact Hp]. }
      unfold mbind, M_bind, lift in Hrun.
      destruct (Shared.response_data d); simpl in Hrun; injection Hrun as <- <-;
        (split; [reflexivity|]); (split; [exact Hshape|]); try (by right).
      split; [exact Hp|]. apply strip_clean.
    + injection Hrun as <- <-. split; [reflexivity|]. by split.
  - unfold mbind, M_bind, lift in Hrun. injection Hrun as <- <-. exists [].
    split; [reflexivity|]. split; [by left|]. left. split; [|done].
    by eapply extract_raises.
Qed.

Lemma searched_extract_from results : ∀ ctx0 refs0,
  (foldl Searched.extract_step (ctx0, refs0) results).2
    = refs0 ++ (Searched.ref_string <$> results).
Proof.
  induction results as [|w ws IH]; intros ctx0 refs0; simpl.
  - by rewrite app_nil_r.
  - rewrite IH. by rewrite <- app_assoc.
Qed.

(** X6. In the web-search variant the reference list is built without any
    possible failure: one string per item, in order, made of the title, a
    period, a space and the link, where a missing or null field reads
    None. *)
Theorem searched_reference_extraction (search_results : list item) :
  (Searched.extract search_results).2 = Searched.ref_string <$> search_results
  ∧ length (Searched.extract search_results).2 = length search_results
  ∧ (∀ i result, search_results !! i = Some result →
       (Searched.extract search_results).2 !! i =
         Some (py_str (get (item_title result)) +:+ ". " +:+ py_str (get (item_link result))))
  ∧ (∀ result, item_title result = None → item_link result = None →
       Searched.ref_string result = "None. None").
Proof.
  assert (H : (Searched.extract search_results).2 = Searched.ref_string <$> search_results).
  { unfold Searched.extract. by rewrite searched_extract_from. }
  split; [exact H|]. rewrite H. split; [apply length_fmap|]. split.
  - intros i result Hi. by rewrite list_lookup_fmap, Hi.
  - intros result Ht Hl. unfold Searched.ref_string. by rewrite Ht, Hl.
Qed.

(** ** Files are saved last, and only on success *)

Lemma no_write_posts posts (response : option (gmap string jval)) :
  (posts = [] ∧ response = None) ∨ (∃ req, posts = [EvPost req]) → no_write posts.
Proof. intros [[-> _]|[req ->]]; by repeat constructor. Qed.

Lemma no_write_app e1 e2 : no_write e1 → no_write e2 → no_write (e1 ++ e2).
Proof. apply Forall_app_2. Qed.

Lemma saves_last_app e1 e2 path : no_write e1 → saves_last path e2 → saves_last path (e1 ++ e2).
Proof.
  intros H1 (before & last & -> & Hb & Hl). exists (e1 ++ before), last.
  split; [by rewrite app_assoc|]. split; [by apply no_write_app|done].
Qed.

Lemma runs_weaken {A} (m : M A) (P Q : outcome A → list event → Prop) :
  runs m P → (∀ o evs, P o evs → Q o evs) → runs m Q.
Proof. intros Hm HPQ tr. destruct (Hm tr) as (evs & Htr & HP). eauto. Qed.

Lemma runs_ret {A} (a : A) (P : outcome A → list event → Prop) :
  P (Ok a) [] → runs (mret a) P.
Proof. intros HP tr. exists []. by rewrite app_nil_r. Qed.

Lemma runs_raise {A} (e : exn) (P : outcome A → list event → Prop) :
  P (Raise e) [] → runs (raise e) P.
Proof. intros HP tr. exists []. by rewrite app_nil_r. Qed.

(** Sequencing: what runs first is quiet, what follows decides. *)
Lemma runs_bind {A B} (m : M A) (f : A → M B) (P : outcome B → list event → Prop) :
  runs m quiet →
  (∀ a, runs (f a) P) →
  (∀ o evs1 evs2, no_write evs1 → P o evs2 → P o (evs1 ++ evs2)) →
  (∀ e evs, not_exit (Raise e : outcome A) → no_write evs → P (Raise e) evs) →
  runs (m ≫= f) P.
Proof.
  intros Hm Hf Happ Hraise tr. unfold mbind, M_bind.
  destruct (Hm tr) as (evs1 & Htr1 & Hexit & Hnw).
  destruct (m tr) as [[a|e] tr1]; simpl in *; subst tr1.
  - destruct (Hf a (tr ++ evs1)) as (evs2 & Htr2 & HP).
    exists (evs1 ++ evs2). rewrite Htr2, app_assoc. split; [done|]. by apply Happ.
  - exists evs1. split; [done|]. by apply Hraise.
Qed.

Lemma quiet_app {A} (o : outcome A) evs1 evs2 :
  no_write evs1 → quiet o evs2 → quiet o (evs1 ++ evs2).
Proof. intros H1 [Ho H2]. split; [done|by apply no_write_app]. Qed.

Lemma quiet_raise {A B} e evs :
  not_exit (Raise e : outcome A) → no_write evs → quiet (Raise e : outcome B) evs.
Proof. intros He Hnw. split; [|done]. intros code [= ->]. by eapply He. Qed.

Lemma runs_bind_quiet {A B} (m : M A) (f : A → M B) :
  runs m quiet → (∀ a, runs (f a) quiet) → runs (m ≫= f) quiet.
Proof.
  intros Hm Hf. apply runs_bind; [done|done|apply quiet_app|apply quiet_raise].
Qed.

Lemma not_exit_Ok {A} (a : A) : not_exit (Ok a).
Proof. by intros code. Qed.

Lemma runs_as_str e v : (∀ c, e ≠ SystemExit c) → runs (lift (as_str e v)) quiet.
Proof.
  intros He tr. exists []. rewrite app_nil_r. split; [done|].
  split; [|constructor]. destruct v; simpl; try apply not_exit_Ok;
    intros code [= ->]; by eapply He.
Qed.

Lemma runs_make_llm_request W messages model temperature max_tokens :
  runs (Shared.make_llm_request W messages model temperature max_tokens) quiet.
Proof.
  intros tr.
  destruct (make_llm_request_shape W messages model temperature max_tokens tr)
    as (response & posts & Hcall & Hposts).
  exists posts. rewrite Hcall. split; [done|]. split; [apply not_exit_Ok|].
  by eapply no_write_posts.
Qed.

Lemma runs_generate_subcategories W topic : runs (Shared.generate_subcategories W topic) quiet.
Proof.
  unfold Shared.generate_subcategories.
  apply runs_bind_quiet; [apply runs_make_llm_request|]. intros response.
  destruct (dict_truthy response) as [d|];
    [|apply runs_ret; split; [apply not_exit_Ok|constructor]].
  apply runs_bind_quiet; [by apply runs_as_str|]. intros data.
  destruct (parse_subcategories (Py.strip data));
    apply runs_ret; (split; [apply not_exit_Ok|constructor]).
Qed.

Lemma runs_openalex_search W query limit mailto :
  runs (OpenAlex.openalex_search W query limit mailto) quiet.
Proof.
  intros tr. destruct (openalex_search_trace W query limit mailto tr) as (results & req & H).
  exists [EvGet req]. rewrite H. split; [done|]. split; [apply not_exit_Ok|].
  by repeat constructor.
Qed.

Lemma runs_openalex_research W subcategory :
  runs (OpenAlex.research_subcategory W subcategory) quiet.
Proof.
  unfold OpenAlex.research_subcategory.
  apply runs_bind_quiet; [apply runs_openalex_search|]. intros [|w ws].
  { apply runs_ret. split; [apply not_exit_Ok|constructor]. }
  apply runs_bind_quiet.
  - intros tr. exists []. rewrite app_nil_r. split; [done|]. split; [|constructor].
    unfold lift. simpl. unfold OpenAlex.extract.
    destruct (foldl_outcome _ _ _) as [x|e] eqn:Hext; [apply not_exit_Ok|].
    apply extract_raises in Hext as ->. by intros code.
  - intros [ctx refs].
    apply runs_bind_quiet; [apply runs_make_llm_request|]. intros response.
    destruct (dict_truthy response) as [d|];
      [|apply runs_ret; split; [apply not_exit_Ok|constructor]].
    apply runs_bind_quiet; [by apply runs_as_str|]. intros data.
    apply runs_ret. split; [apply not_exit_Ok|constructor].
Qed.

Lemma runs_google_search W query : runs (Searched.google_search W query) quiet.
Proof.
  unfold Searched.google_search.
  destruct (Searched.validate_google_search_api_key W) as [[api_key cse_id]|];
    [|apply runs_ret; split; [apply not_exit_Ok|constructor]].
  intros tr. unfold mbind, M_bind, Shared.requests_get.
  eexists [EvGet _].
  destruct (http_get W tr _) as [|status data];
    [|destruct (OpenAlex.raise_for_status status)]; simpl;
    (split; [reflexivity|]); (split; [apply not_exit_Ok|by repeat constructor]).
Qed.

Lemma runs_searched_research W subcategory :
  runs (Searched.research_subcategory W subcategory) quiet.
Proof.
  unfold Searched.research_subcategory.
  apply runs_bind_quiet; [apply runs_google_search|]. intros [|w ws].
  { apply runs_ret. split; [apply not_exit_Ok|constructor]. }
  destruct (Searched.extract (w :: ws)) as [ctx refs].
  apply runs_bind_quiet; [apply runs_make_llm_request|]. intros response.
  destruct (dict_truthy response) as [d|];
    [|apply runs_ret; split; [apply not_exit_Ok|constructor]].
  apply runs_bind_quiet; [by apply runs_as_str|]. intros data.
  apply runs_ret. split; [apply not_exit_Ok|constructor].
Qed.

Lemma generator_spec_app ext o evs1 evs2 :
  no_write evs1 → generator_spec ext o evs2 → generator_spec ext o (evs1 ++ evs2).
Proof.
  intros H1 [Ho H2]. split; [done|].
  destruct o as [[path|]|e]; try by apply no_write_app.
  destruct H2 as [Hs Hn]. split; [by apply saves_last_app|done].
Qed.

Lemma generator_spec_raise {A} ext e evs :
  not_exit (Raise e : outcome A) → no_write evs → generator_spec ext (Raise e) evs.
Proof. intros He Hnw. split; [|done]. intros code [= ->]. by eapply He. Qed.

Lemma generator_spec_none ext : generator_spec ext (Ok None) [].
Proof. split; [apply not_exit_Ok|constructor]. Qed.

Lemma runs_timestamp W : runs (Shared.timestamp W) quiet.
Proof.
  intros tr. exists []. rewrite app_nil_r. split; [done|].
  split; [apply not_exit_Ok|constructor].
Qed.

Lemma runs_save ext stamp (save : M unit) (e : event) :
  (∀ tr, save tr = (Ok (), tr ++ [e])) →
  saved_path e = Some ("research_paper_" +:+ stamp +:+ ext) →
  runs (save ;; mret (Some ("research_paper_" +:+ stamp +:+ ext))) (generator_spec ext).
Proof.
  intros Hsave Hpath tr. exists [e]. unfold mbind, M_bind. rewrite Hsave. simpl.
  split; [done|]. split; [apply not_exit_Ok|]. split; [|by exists stamp].
  exists [], e. split; [done|]. split; [constructor|done].
Qed.

Lemma runs_generate_txt_document W main_topic research_findings all_references :
  runs (Shared.generate_txt_document W main_topic research_findings all_references)
       (generator_spec ".txt").
Proof.
  unfold Shared.generate_txt_document.
  apply runs_bind;
    [apply runs_make_llm_request| |apply generator_spec_app|apply generator_spec_raise].
  intros response. destruct (dict_truthy response) as [d|];
    [|apply runs_ret, generator_spec_none].
  destruct (py_bool (Shared.response_data d)); [|apply runs_ret, generator_spec_none].
  apply runs_bind;
    [apply runs_timestamp| |apply generator_spec_app|apply generator_spec_raise].
  intros stamp.
  apply runs_bind;
    [by apply runs_as_str| |apply generator_spec_app|apply generator_spec_raise].
  intros body. by eapply runs_save.
Qed.

Lemma runs_generate_markdown_document W main_topic research_findings all_references :
  runs (Shared.generate_markdown_document W main_topic research_findings all_references)
       (generator_spec ".md").
Proof.
  unfold Shared.generate_markdown_document.
  apply runs_bind;
    [apply runs_make_llm_request| |apply generator_spec_app|apply generator_spec_raise].
  intros response. destruct (dict_truthy response) as [d|];
    [|apply runs_ret, generator_spec_none].
  destruct (py_bool (Shared.response_data d)); [|apply runs_ret, generator_spec_none].
  apply runs_bind;
    [apply runs_timestamp| |apply generator_spec_app|apply generator_spec_raise].
  intros stamp.
  apply runs_bind;
    [by apply runs_as_str| |apply generator_spec_app|apply generator_spec_raise].
  intros body. by eapply runs_save.
Qed.

(** python-docx refuses a block with [ValueError] and nothing else. *)
Lemma foldl_outcome_raises {A B} (f : A → B → outcome A) (P : exn → Prop) :
  (∀ a x e, f a x = Raise e → P e) →
  ∀ l a e, foldl_outcome f a l = Raise e → P e.
Proof.
  intros Hf. induction l as [|x l IH]; intros a e; simpl; [done|].
  unfold mbind, outcome_bind. destruct (f a x) as [a'|e'] eqn:Hfx.
  - apply IH.
  - intros [= <-]. by eapply Hf.
Qed.

Lemma add_block_raises doc b e : Docx.add_block doc b = Raise e → e = ValueError.
Proof. unfold Docx.add_block. destruct (Docx.accepted b); [done|]. by intros [= <-]. Qed.

Lemma add_line_checked_raises doc line e :
  Docx.add_line_checked doc line = Raise e → e = ValueError.
Proof.
  unfold Docx.add_line_checked. destruct (negb _); [done|].
  destruct (bool_decide _); [apply add_block_raises|].
  destruct (Docx.match_heading _); apply add_block_raises.
Qed.

Lemma document_checked_raises body refs e :
  Docx.document_checked body refs = Raise e → e = ValueError.
Proof.
  unfold Docx.document_checked, Docx.add_dynamic_headings_checked, mbind, outcome_bind.
  destruct (foldl_outcome Docx.add_line_checked [] (Py.split LF body)) as [blocks|e'] eqn:Hbody.
  - destruct (Docx.add_references_checked blocks refs) as [all|e'] eqn:Hrefs; [done|].
    intros [= <-]. unfold Docx.add_references_checked in Hrefs.
    destruct refs as [|r refs]; [done|]. unfold mbind, outcome_bind in Hrefs.
    destruct (Docx.add_block blocks _) as [blocks'|e''] eqn:Hhead.
    + eapply (foldl_outcome_raises _ (λ e, e = ValueError)); [|exact Hrefs].
      intros a x e. apply add_block_raises.
    + injection Hrefs as <-. by eapply add_block_raises.
  - intros [= <-].
    eapply (foldl_outcome_raises _ (λ e, e = ValueError)); [|exact Hbody].
    apply add_line_checked_raises.
Qed.

Lemma runs_document_checked body refs : runs (lift (Docx.document_checked body refs)) quiet.
Proof.
  intros tr. exists []. rewrite app_nil_r. split; [done|]. split; [|constructor].
  intros code. simpl. destruct (Docx.document_checked body refs) as [d|e] eqn:Hdoc; [done|].
  apply document_checked_raises in Hdoc as ->. discriminate.
Qed.

Lemma runs_generate_docx_document W main_topic research_findings all_references :
  runs (Shared.generate_docx_document W main_topic research_findings all_references)
       (generator_spec ".docx").
Proof.
  unfold Shared.generate_docx_document.
  apply runs_bind;
    [apply runs_make_llm_request| |apply generator_spec_app|apply generator_spec_raise].
  intros response. destruct (dict_truthy response) as [d|];
    [|apply runs_ret, generator_spec_none].
  destruct (py_bool (Shared.response_data d)); [|apply runs_ret, generator_spec_none].
  apply runs_bind;
    [by apply runs_as_str| |apply generator_spec_app|apply generator_spec_raise].
  intros body.
  apply runs_bind;
    [apply runs_document_checked| |apply generator_spec_app|apply generator_spec_raise].
  intros _.
  apply runs_bind;
    [apply runs_timestamp| |apply generator_spec_app|apply generator_spec_raise].
  intros stamp. by eapply runs_save.
Qed.

(** X7. A document generator saves a file only as its last action and
    only when it succeeds: it returns the path of a file exactly when that
    file, named research_paper_<stamp> with the extension of the format,
    has just been saved; when it returns nothing or raises, no file has
    been saved.  It never leaves the interpreter by itself. *)
Theorem generators_save_on_success_only W main_topic research_findings all_references :
  runs (Shared.generate_txt_document W main_topic research_findings all_references)
       (generator_spec ".txt")
  ∧ runs (Shared.generate_markdown_document W main_topic research_findings all_references)
         (generator_spec ".md")
  ∧ runs (Shared.generate_docx_document W main_topic research_findings all_references)
         (generator_spec ".docx").
Proof.
  split; [apply runs_generate_txt_document|].
  split; [apply runs_generate_markdown_document|apply runs_generate_docx_document].
Qed.

Lemma final_spec_app ext o evs1 evs2 :
  no_write evs1 → final_spec ext o evs2 → final_spec ext o (evs1 ++ evs2).
Proof.
  intros H1. destruct o as [path|e]; simpl.
  - intros [Hs Hn]. split; [by apply saves_last_app|done].
  - intros [H2 He]. split; [by apply no_write_app|done].
Qed.

Lemma final_spec_raise {A} ext e evs :
  not_exit (Raise e : outcome A) → no_write evs → final_spec ext (Raise e) evs.
Proof. intros He Hnw. split; [done|]. intros code ->. by destruct (He code). Qed.

Lemma final_spec_exit ext : final_spec ext (Raise (SystemExit 1)) [].
Proof. split; [constructor|]. by intros code [= <-]. Qed.

Lemma runs_final_of_generator ext (g : M (option string)) :
  runs g (generator_spec ext) →
  runs (g ≫= λ final_doc_path,
          match final_doc_path with
          | Some path => mret path
          | None => raise (SystemExit 1)
          end) (final_spec ext).
Proof.
  intros Hg tr. destruct (Hg tr) as (evs & Htr & Hexit & Hspec).
  exists evs. unfold mbind, M_bind.
  destruct (g tr) as [[[path|]|e] tr1]; simpl in *; subst tr1; (split; [done|]).
  - done.
  - split; [done|]. by intros code [= <-].
  - split; [done|]. intros code ->. by destruct (Hexit code).
Qed.

(** ** No interrupt comes from the code itself *)

Lemma uninterrupted_ret {A} (a : A) : uninterrupted (mret a : M A).
Proof. by intros tr. Qed.

Lemma uninterrupted_raise {A} e : e ≠ KeyboardInterrupt → uninterrupted (raise e : M A).
Proof. intros He tr [= ->]. done. Qed.

Lemma uninterrupted_bind {A B} (m : M A) (f : A → M B) :
  uninterrupted m → (∀ a, uninterrupted (f a)) → uninterrupted (m ≫= f).
Proof.
  intros Hm Hf tr. unfold mbind, M_bind. specialize (Hm tr).
  destruct (m tr) as [[a|e] tr1]; simpl in *; [apply Hf|].
  intros [= ->]. by apply Hm.
Qed.

Lemma uninterrupted_as_str e v :
  e ≠ KeyboardInterrupt → uninterrupted (lift (as_str e v)).
Proof. intros He tr. unfold lift. destruct v; simpl; try done; by intros [= ->]. Qed.

Lemma uninterrupted_make_llm_request W messages model temperature max_tokens :
  uninterrupted (Shared.make_llm_request W messages model temperature max_tokens).
Proof.
  intros tr.
  destruct (make_llm_request_shape W messages model temperature max_tokens tr)
    as (response & posts & Hcall & _).
  by rewrite Hcall.
Qed.

Lemma uninterrupted_generate_subcategories W topic :
  uninterrupted (Shared.generate_subcategories W topic).
Proof.
  unfold Shared.generate_subcategories.
  apply uninterrupted_bind; [apply uninterrupted_make_llm_request|]. intros response.
  destruct (dict_truthy response) as [d|]; [|apply uninterrupted_ret].
  apply uninterrupted_bind; [by apply uninterrupted_as_str|]. intros data.
  destruct (parse_subcategories (Py.strip data)); apply uninterrupted_ret.
Qed.

Lemma uninterrupted_openalex_research W subcategory :
  uninterrupted (OpenAlex.research_subcategory W subcategory).
Proof.
  unfold OpenAlex.research_subcategory. apply uninterrupted_bind.
  { intros tr.
    destruct (openalex_search_trace W (subcategory +:+ " research paper") 5
                (getenv W "OPENALEX_EMAIL") tr) as (results & req & H).
    by rewrite H. }
  intros [|w ws]; [apply uninterrupted_ret|]. apply uninterrupted_bind.
  - intros tr. unfold lift, OpenAlex.extract. cbn [fst].
    destruct (foldl_outcome OpenAlex.extract_step ("", []) (w :: ws)) as [x|e] eqn:Hext;
      [done|].
    apply extract_raises in Hext as ->. done.
  - intros [ctx refs].
    apply uninterrupted_bind; [apply uninterrupted_make_llm_request|]. intros response.
    destruct (dict_truthy response) as [d|]; [|apply uninterrupted_ret].
    apply uninterrupted_bind; [by apply uninterrupted_as_str|]. intros data.
    apply uninterrupted_ret.
Qed.

Lemma uninterrupted_searched_research W subcategory :
  uninterrupted (Searched.research_subcategory W subcategory).
Proof.
  unfold Searched.research_subcategory. apply uninterrupted_bind.
  { unfold Searched.google_search.
    destruct (Searched.validate_google_search_api_key W) as [[api_key cse_id]|];
      [|apply uninterrupted_ret].
    intros tr. unfold mbind, M_bind, Shared.requests_get.
    destruct (http_get W tr _) as [|status data];
      [|destruct (OpenAlex.raise_for_status status)]; done. }
  intros [|w ws]; [apply uninterrupted_ret|].
  destruct (Searched.extract (w :: ws)) as [ctx refs].
  apply uninterrupted_bind; [apply uninterrupted_make_llm_request|]. intros response.
  destruct (dict_truthy response) as [d|]; [|apply uninterrupted_ret].
  apply uninterrupted_bind; [by apply uninterrupted_as_str|]. intros data.
  apply uninterrupted_ret.
Qed.

Lemma uninterrupted_save (save : M unit) (e : event) (path : string) :
  (∀ tr, save tr = (Ok (), tr ++ [e])) → uninterrupted (save ;; mret (Some path)).
Proof. intros Hsave tr. unfold mbind, M_bind. by rewrite Hsave. Qed.

Lemma uninterrupted_generators W main_topic research_findings all_references :
  uninterrupted (Shared.generate_txt_document W main_topic research_findings all_references)
  ∧ uninterrupted (Shared.generate_markdown_document W main_topic research_findings all_references)
  ∧ uninterrupted (Shared.generate_docx_document W main_topic research_findings all_references).
Proof.
  split; [|split].
  - unfold Shared.generate_txt_document.
    apply uninterrupted_bind; [apply uninterrupted_make_llm_request|]. intros response.
    destruct (dict_truthy response) as [d|]; [|apply uninterrupted_ret].
    destruct (py_bool (Shared.response_data d)); [|apply uninterrupted_ret].
    apply uninterrupted_bind; [by intros tr|]. intros stamp.
    apply uninterrupted_bind; [by apply uninterrupted_as_str|]. intros body.
    by eapply uninterrupted_save.
  - unfold Shared.generate_markdown_document.
    apply uninterrupted_bind; [apply uninterrupted_make_llm_request|]. intros response.
    destruct (dict_truthy response) as [d|]; [|apply uninterrupted_ret].
    destruct (py_bool (Shared.response_data d)); [|apply uninterrupted_ret].
    apply uninterrupted_bind; [by intros tr|]. intros stamp.
    apply uninterrupted_bind; [by apply uninterrupted_as_str|]. intros body.
    by eapply uninterrupted_save.
  - unfold Shared.generate_docx_document.
    apply uninterrupted_bind; [apply uninterrupted_make_llm_request|]. intros response.
    destruct (dict_truthy response) as [d|]; [|apply uninterrupted_ret].
    destruct (py_bool (Shared.response_data d)); [|apply uninterrupted_ret].
    apply uninterrupted_bind; [by apply uninterrupted_as_str|]. intros body.
    apply uninterrupted_bind.
    { intros tr. unfold lift. simpl.
      destruct (Docx.document_checked body _) as [doc|e] eqn:Hdoc; [done|].
      apply document_checked_raises in Hdoc as ->. discriminate. }
    intros _.
    apply uninterrupted_bind; [by intros tr|]. intros stamp.
    by eapply uninterrupted_save.
Qed.

Section driver_runs.
Variable W : world.
Variable research : string → M (option string * list string).
Hypothesis research_quiet : ∀ subcategory, runs (research subcategory) quiet.
Hypothesis research_uninterrupted : ∀ subcategory, uninterrupted (research subcategory).

Lemma uninterrupted_research_loop subcategories :
  uninterrupted (Shared.research_loop research subcategories).
Proof.
  unfold Shared.research_loop. generalize (@nil string, @nil string).
  induction subcategories as [|s subs IH]; intros acc; simpl; [apply uninterrupted_ret|].
  apply uninterrupted_bind; [|intros acc'; apply IH].
  destruct acc as [findings refs]. unfold Shared.research_step.
  apply uninterrupted_bind; [apply research_uninterrupted|].
  intros [[[|c t]|] references]; apply uninterrupted_ret.
Qed.

Lemma uninterrupted_main_body main_topic doc_format :
  uninterrupted (Shared.main_body W research main_topic doc_format).
Proof.
  unfold Shared.main_body.
  destruct (Shared.validate_api_key W) as [key|]; [|by apply uninterrupted_raise].
  destruct (negb (Py.truthy main_topic)); [by apply uninterrupted_raise|].
  destruct (negb (bool_decide _)); [by apply uninterrupted_raise|].
  apply uninterrupted_bind; [apply uninterrupted_generate_subcategories|].
  intros [[|sub subs]|]; try by apply uninterrupted_raise.
  unfold Shared.research_and_coalesce.
  apply uninterrupted_bind; [apply uninterrupted_research_loop|].
  intros [[|f findings] refs]; [by apply uninterrupted_raise|].
  unfold Shared.coalesce.
  destruct (uninterrupted_generators W main_topic (f :: findings) refs) as (Ht & Hm & Hd).
  apply uninterrupted_bind.
  - destruct (decide (doc_format = "txt")); [exact Ht|].
    destruct (decide (doc_format = "md")); [exact Hm|exact Hd].
  - intros [path|]; [apply uninterrupted_ret|by apply uninterrupted_raise].
Qed.

Lemma runs_research_step acc subcategory :
  runs (Shared.research_step research acc subcategory) quiet.
Proof.
  destruct acc as [findings refs]. unfold Shared.research_step.
  apply runs_bind_quiet; [apply research_quiet|].
  intros [[[|c t]|] references]; apply runs_ret; (split; [apply not_exit_Ok|constructor]).
Qed.

Lemma runs_research_loop subcategories :
  runs (Shared.research_loop research subcategories) quiet.
Proof.
  unfold Shared.research_loop. generalize (@nil string, @nil string).
  induction subcategories as [|s subs IH]; intros acc; simpl.
  - apply runs_ret. split; [apply not_exit_Ok|constructor].
  - apply runs_bind_quiet; [apply runs_research_step|]. intros acc'. apply IH.
Qed.

Lemma runs_coalesce main_topic doc_format findings refs :
  runs (Shared.coalesce W main_topic doc_format findings refs)
       (final_spec (extension doc_format)).
Proof.
  unfold Shared.coalesce, extension.
  destruct (decide (doc_format = "txt"));
    [apply runs_final_of_generator, runs_generate_txt_document|].
  destruct (decide (doc_format = "md"));
    [apply runs_final_of_generator, runs_generate_markdown_document|].
  apply runs_final_of_generator, runs_generate_docx_document.
Qed.

Lemma runs_research_and_coalesce main_topic doc_format subcategories :
  runs (Shared.research_and_coalesce W research main_topic doc_format subcategories)
       (final_spec (extension doc_format)).
Proof.
  unfold Shared.research_and_coalesce.
  apply runs_bind; [apply runs_research_loop| |apply final_spec_app|apply final_spec_raise].
  intros [[|f findings] refs]; [apply runs_raise, final_spec_exit|apply runs_coalesce].
Qed.

Lemma extension_of_format doc_format :
  doc_format ∈ ["txt"; "md"; "docx"] → extension doc_format = "." +:+ doc_format.
Proof.
  rewrite !elem_of_cons, elem_of_nil. by intros [->|[->|[->|[]]]].
Qed.

Lemma runs_main_body main_topic doc_format :
  runs (Shared.main_body W research main_topic doc_format)
       (λ o evs, final_spec ("." +:+ doc_format) o evs
                 ∧ (∀ path, o = Ok path → doc_format ∈ ["txt"; "md"; "docx"])).
Proof.
  assert (Hexit : runs (raise (SystemExit 1) : M string)
            (λ o evs, final_spec ("." +:+ doc_format) o evs
                      ∧ (∀ path, o = Ok path → doc_format ∈ ["txt"; "md"; "docx"]))).
  { apply runs_raise. split; [apply final_spec_exit|done]. }
  unfold Shared.main_body.
  destruct (Shared.validate_api_key W) as [key|]; [|exact Hexit].
  destruct (Py.truthy main_topic); [|exact Hexit]. simpl.
  destruct (bool_decide_reflect (doc_format ∈ ["txt"; "md"; "docx"])) as [Hfmt|];
    [|exact Hexit]. simpl.
  apply runs_bind; [apply runs_generate_subcategories| | |].
  - intros [[|sub subs]|]; try exact Hexit.
    eapply runs_weaken; [apply runs_research_and_coalesce|].
    intros o evs Hspec. rewrite <- (extension_of_format _ Hfmt). by split.
  - intros o evs1 evs2 H1 [Hspec Hok]. split; [by apply final_spec_app|done].
  - intros e evs He Hnw. split; [by eapply final_spec_raise|done].
Qed.

Lemma runs_main main_topic doc_format :
  runs (Shared.main W research main_topic doc_format) (main_spec doc_format).
Proof.
  intros tr. destruct (runs_main_body main_topic doc_format tr) as (evs & Htr & Hspec & Hfmt).
  exists evs. unfold Shared.main.
  destruct (Shared.main_body W research main_topic doc_format tr) as [[path|e] tr1] eqn:Hbody;
    simpl in *; subst tr1.
  - split; [done|]. destruct Hspec. split; [done|]. split; [done|]. by eapply Hfmt.
  - destruct Hspec as [Hnw He].
    pose proof (uninterrupted_main_body main_topic doc_format tr) as Hint.
    rewrite Hbody in Hint. simpl in Hint.
    destruct e; simpl; (split; [done|]); (split; [|done]); try done.
    by rewrite (He code).
Qed.
End driver_runs.

Lemma main_ends_as_specified W research main_topic doc_format tr r :
  (∀ subcategory, runs (research subcategory) quiet) →
  (∀ subcategory, uninterrupted (research subcategory)) →
  main_ends W research main_topic doc_format tr r →
  main_ends_spec W research main_topic doc_format tr r.
Proof.
  intros Hquiet Hunint [|evs Hprefix].
  - destruct (runs_main W research Hquiet Hunint main_topic doc_format tr)
      as (evs & Htr & Hspec).
    exists evs. split; [exact Htr|].
    destruct (Shared.main W research main_topic doc_format tr).1 as [path|e]; [exact Hspec|].
    by left.
  - exists evs. split; [reflexivity|]. right. by split.
Qed.



(** ** The checks that come first *)

Lemma generate_subcategories_request W topic tr key :
  Shared.validate_api_key W = Some key →
  ∃ o, Shared.generate_subcategories W topic tr =
         (o, tr ++ [EvPost (chat_request key (Shared.user_message (Shared.decompose_prompt topic))
                              "gpt-4o-mini" "0.4" 200)]).
Proof.
  intros Hkey. unfold Shared.generate_subcategories, Shared.make_llm_request.
  rewrite Hkey. unfold mbind, M_bind, Shared.post, chat_request.
  destruct (http_post W tr _) as [|status body]; [by eexists|].
  destruct (status =? 200)%Z; [|by eexists].
  cbn [mret M_ret]. destruct (dict_truthy (Some body)) as [d|]; [|by eexists].
  unfold lift. destruct (as_str AttributeError (Shared.response_data d)); [|by eexists].
  destruct (parse_subcategories (Py.strip a)); by eexists.
Qed.

Lemma main_body_first_request W research main_topic doc_format tr key :
  (∀ subcategory, runs (research subcategory) quiet) →
  Shared.validate_api_key W = Some key →
  main_topic ≠ "" →
  doc_format ∈ ["txt"; "md"; "docx"] →
  ∃ rest,
    (Shared.main W research main_topic doc_format tr).2 =
      tr ++ EvPost (chat_request key (Shared.user_message (Shared.decompose_prompt main_topic))
                      "gpt-4o-mini" "0.4" 200) :: rest.
Proof.
  intros Hresearch Hkey Htopic Hfmt.
  enough (∃ rest, (Shared.main_body W research main_topic doc_format tr).2 =
      tr ++ EvPost (chat_request key (Shared.user_message (Shared.decompose_prompt main_topic))
                      "gpt-4o-mini" "0.4" 200) :: rest) as [rest Hrest].
  { exists rest. unfold Shared.main.
    destruct (Shared.main_body W research main_topic doc_format tr) as [[path|[| | | |code]] tr1];
      exact Hrest. }
  unfold Shared.main_body. rewrite Hkey.
  apply truthy_true in Htopic. rewrite Htopic. simpl.
  rewrite (bool_decide_eq_true_2 _ Hfmt). simpl.
  destruct (generate_subcategories_request W main_topic tr key Hkey) as [o Hgen].
  unfold mbind, M_bind. rewrite Hgen.
  destruct o as [[[|sub subs]|]|e]; try (exists []; reflexivity).
  destruct (runs_research_and_coalesce W research Hresearch main_topic doc_format
              (sub :: subs) (tr ++ [EvPost (chat_request key
                 (Shared.user_message (Shared.decompose_prompt main_topic))
                 "gpt-4o-mini" "0.4" 200)])) as (evs & Htr & _).
  exists evs. rewrite Htr. by rewrite <- app_assoc.
Qed.

(** X9. [main] checks its three preconditions before it talks to any
    service: without a usable key, with an empty topic or with a format
    other than txt, md and docx it leaves with status 1 and the history is
    untouched.  When the three hold, the first thing either variant does
    is to post the decomposition request for the topic. *)
Theorem main_checks_come_first W research main_topic doc_format tr :
  (Shared.validate_api_key W = None ∨ main_topic = ""
   ∨ doc_format ∉ ["txt"; "md"; "docx"] →
     Shared.main W research main_topic doc_format tr = (Raise (SystemExit 1), tr))
  ∧ (∀ key,
       Shared.validate_api_key W = Some key → main_topic ≠ "" →
       doc_format ∈ ["txt"; "md"; "docx"] →
       let first := EvPost (chat_request key
                      (Shared.user_message (Shared.decompose_prompt main_topic))
                      "gpt-4o-mini" "0.4" 200) in
       (∃ rest, (OpenAlex.main W main_topic doc_format tr).2 = tr ++ first :: rest)
       ∧ (∃ rest, (Searched.main W main_topic doc_format tr).2 = tr ++ first :: rest)).
Proof.
  split.
  - intros Hpre. unfold Shared.main, Shared.main_body.
    destruct (Shared.validate_api_key W) as [key|]; [|done].
    destruct Hpre as [?|[-> | Hfmt]]; [done|done|].
    destruct (Py.truthy main_topic); [|done]. simpl.
    by rewrite (bool_decide_eq_false_2 _ Hfmt).
  - intros key Hkey Htopic Hfmt first. split.
    + by apply (main_body_first_request W (OpenAlex.research_subcategory W));
        [apply runs_openalex_research|..].
    + by apply (main_body_first_request W (Searched.research_subcategory W));
        [apply runs_searched_research|..].
Qed.

Lemma main_checks_come_first_witness :
  let W := scripted [answer "1. A"] [] in
  Shared.main W (OpenAlex.research_subcategory W) "Energy" "pdf" [] = (Raise (SystemExit 1), []).
Proof.
  intros W.
  apply (main_checks_come_first W (OpenAlex.research_subcategory W) "Energy" "pdf" []).
  right. right. rewrite !not_elem_of_cons. repeat split; try discriminate.
  by intros ?%elem_of_nil.
Defined.

(** ** The plain-text document *)

(** X10. When the coalescing call answers with a non-empty text, the
    plain-text generator writes one file: that text, a blank line, the
    line References, a blank line, and the consolidated references joined
    by line feeds (nothing after the heading when there is none). *)
Theorem txt_document_layout W main_topic research_findings all_references
    tr d body tr1 :
  Shared.make_llm_request W
    (Shared.user_message
       (Shared.txt_prompt main_topic (Py.join (NL +:+ NL) research_findings)))
    "gpt-4o" "0.6" 4000 tr = (Ok (Some d), tr1) →
  d !! "data" = Some (JStr body) →
  body ≠ "" →
  let filename := "research_paper_" +:+ now W tr1 +:+ ".txt" in
  let heading := NL +:+ NL +:+ "References" +:+ NL +:+ NL in
  Shared.generate_txt_document W main_topic research_findings all_references tr =
    (Ok (Some filename),
     tr1 ++ [EvWrite filename (body +:+ heading +:+ Py.join NL (consolidate all_references))])
  ∧ (consolidate all_references = [] →
       Shared.generate_txt_document W main_topic research_findings all_references tr =
         (Ok (Some filename), tr1 ++ [EvWrite filename (body +:+ heading)])).
Proof.
  intros Hcall Hd Hbody filename heading.
  assert (Hrun : Shared.generate_txt_document W main_topic research_findings all_references tr =
    (Ok (Some filename),
     tr1 ++ [EvWrite filename (body +:+ heading +:+ Py.join NL (consolidate all_references))])).
  { unfold Shared.generate_txt_document.
    rewrite (bind_Ok _ _ _ _ _ Hcall), (dict_truthy_data _ _ Hd).
    rewrite (response_data_lookup _ _ Hd). simpl.
    apply truthy_true in Hbody. by rewrite Hbody. }
  split; [exact Hrun|]. intros Hnil. rewrite Hrun, Hnil. simpl.
  by rewrite app_empty_r.
Qed.

Lemma txt_document_layout_witness :
  let W := scripted [answer "Paper"] [] in
  Shared.generate_txt_document W "Energy" ["n1"] ["b"; " a "] [] =
    (Ok (Some "research_paper_20250101_120000.txt"),
     snd (Shared.make_llm_request W
            (Shared.user_message (Shared.txt_prompt "Energy" "n1"))
            "gpt-4o" "0.6" 4000 []) ++
     [EvWrite "research_paper_20250101_120000.txt"
        ("Paper" +:+ NL +:+ NL +:+ "References" +:+ NL +:+ NL +:+ "a" +:+ NL +:+ "b")]).
Proof.
  intros W.
  apply (txt_document_layout W "Energy" ["n1"] ["b"; " a "] []
           {[ "data" := JStr "Paper" ]} "Paper").
  - reflexivity.
  - reflexivity.
  - discriminate.
Defined.

(** ** An answer without text *)

(** X11. When the engine answers but its answer holds no text (the 'data'
    key is missing, or its text is blank), [research_subcategory] returns
    the empty narrative together with the references it has extracted, and
    the loop of [main] then drops both: the accumulators are unchanged. *)
Theorem blank_answer_is_dropped W subcategory tr results tr1 ctx refs d raw tr2
    findings all_references :
  OpenAlex.openalex_search W (subcategory +:+ " research paper") 5
    (getenv W "OPENALEX_EMAIL") tr = (Ok results, tr1) →
  results ≠ [] →
  OpenAlex.extract results = Ok (ctx, refs) →
  Shared.make_llm_request W (Shared.user_message (OpenAlex.prompt subcategory ctx))
    "gpt-4o" "0.5" 2500 tr1 = (Ok (Some d), tr2) →
  d ≠ ∅ →
  d !! "data" = None ∧ raw = "" ∨ d !! "data" = Some (JStr raw) →
  Py.strip raw = "" →
  OpenAlex.research_subcategory W subcategory tr = (Ok (Some "", refs), tr2)
  ∧ Shared.research_step (OpenAlex.research_subcategory W) (findings, all_references)
      subcategory tr = (Ok (findings, all_references), tr2).
Proof.
  intros Hsearch Hne Hext Hcall Hd Hdata Hblank.
  assert (Hrun : OpenAlex.research_subcategory W subcategory tr = (Ok (Some "", refs), tr2)).
  { rewrite (research_subcategory_found _ _ _ _ _ _ _ _ _ Hsearch Hne Hext Hcall).
    unfold dict_truthy. destruct (decide (d = ∅)); [done|].
    unfold Shared.response_data, get_or.
    destruct Hdata as [[-> ->] | ->]; simpl; by rewrite Hblank. }
  split; [exact Hrun|].
  unfold Shared.research_step. by rewrite (bind_Ok _ _ _ _ _ Hrun).
Qed.

Lemma blank_answer_is_dropped_witness :
  let W := scripted [HttpResponse 200 {[ "message" := JStr "no content" ]}] [found [work1]] in
  Shared.research_step (OpenAlex.research_subcategory W) (["n0"], ["r0"]) "Solar" [] =
    (Ok (["n0"], ["r0"]), snd (OpenAlex.research_subcategory W "Solar" [])).
Proof.
  intros W.
  eapply (blank_answer_is_dropped W "Solar" [] [work1] _ _ _
            {[ "message" := JStr "no content" ]} "").
  - reflexivity.
  - discriminate.
  - reflexivity.
  - vm_compute. reflexivity.
  - intros H. apply (f_equal (λ m : gmap string jval, m !! "message")) in H.
    by rewrite lookup_singleton_eq, lookup_empty in H.
  - left. split; [|reflexivity]. by apply lookup_singleton_ne.
  - reflexivity.
Defined.

(** ** More on the reference consolidator *)

Lemma consolidate_ext X Y :
  (∀ s, s ∈ consolidate X ↔ s ∈ consolidate Y) → consolidate X = consolidate Y.
Proof.
  intros Hext. apply (Sorted_unique String.le); [apply sorted_Sorted..|].
  apply NoDup_Permutation; [apply NoDup_consolidate..|exact Hext].
Qed.

(** X12. The consolidated list depends only on which trimmed strings
    occur: reordering or repeating the input changes nothing (so the order
    in which the subcategories were researched does not show), and
    consolidating the parts first and the whole afterwards gives the same
    list as consolidating once. *)
Theorem consolidate_order_independent (X Y : list string) :
  (X ≡ₚ Y → consolidate X = consolidate Y)
  ∧ consolidate (X ++ Y) = consolidate (Y ++ X)
  ∧ consolidate (X ++ X) = consolidate X
  ∧ consolidate (consolidate X ++ consolidate Y) = consolidate (X ++ Y).
Proof.
  split; [|split; [|split]].
  - intros Hperm. apply consolidate_ext. intros s. rewrite !elem_of_consolidate.
    by setoid_rewrite Hperm.
  - apply consolidate_ext. intros s. rewrite !elem_of_consolidate.
    by setoid_rewrite (Permutation_app_comm X Y).
  - apply consolidate_ext. intros s. rewrite !elem_of_consolidate.
    setoid_rewrite elem_of_app.
    split; intros [Hs [r [Hr Heq]]]; (split; [done|]); exists r; (split; [tauto|done]).
  - apply consolidate_ext. intros s. rewrite !elem_of_consolidate.
    setoid_rewrite elem_of_app. split.
    + intros [Hs [r [Hin Hr]]].
      destruct Hin as [Hin|Hin]; apply elem_of_consolidate in Hin as (_ & x & Hx & Heq);
        subst r; rewrite strip_idem in Hr; eauto 6.
    + intros [Hs [r [Hin Heq]]]. split; [done|].
      exists (Py.strip r). split; [|by rewrite strip_idem].
      assert (Py.strip r ≠ "") by (by rewrite Heq).
      destruct Hin as [Hin|Hin]; [left|right]; apply elem_of_consolidate; eauto.
Qed.

(** X13. The consolidated list is never longer than the input; it is empty
    exactly when every entry is blank; and none of its entries is empty or
    has white space at either end. *)
Theorem consolidate_bounds (X : list string) :
  length (consolidate X) ≤ length X
  ∧ (consolidate X = [] ↔ ∀ r, r ∈ X → Py.strip r = "")
  ∧ (∀ s, s ∈ consolidate X →
       s ≠ "" ∧ starts_clean is_space s ∧ ends_clean is_space s).
Proof.
  split; [|split].
  - trans (length (Py.strip <$> filter (λ ref, Py.truthy (Py.strip ref)) X)).
    + apply submseteq_length, NoDup_submseteq; [apply NoDup_consolidate|].
      intros s [Hs [r [Hr <-]]]%elem_of_consolidate.
      apply list_elem_of_fmap. exists r. split; [done|].
      apply list_elem_of_filter. split; [by apply truthy_Is_true|done].
    + rewrite length_fmap. apply length_filter.
  - split.
    + intros Hnil r Hr. destruct (decide (Py.strip r = "")) as [|Hne]; [done|].
      assert (Py.strip r ∈ consolidate X) as Hin by (apply elem_of_consolidate; eauto).
      rewrite Hnil in Hin. by apply elem_of_nil in Hin.
    + intros Hblank. destruct (consolidate X) as [|s l] eqn:Hc; [done|].
      assert (s ∈ consolidate X) as Hin by (rewrite Hc; left).
      apply elem_of_consolidate in Hin as [Hs [r [Hr <-]]]. by destruct Hs; apply Hblank.
  - intros s [Hs [r [Hr <-]]]%elem_of_consolidate. split; [done|apply strip_clean].
Qed.

(** ** The shape of the labels *)

Lemma all_chars_until q p s : all_chars q s = true → all_chars q (until p s) = true.
Proof.
  induction s as [|c s IH]; simpl; [done|].
  intros [Hc Hs]%andb_true_iff. destruct (p c); [done|]. simpl. by rewrite Hc, IH.
Qed.

Lemma until_excludes p s : all_chars (λ c, negb (p c)) (until p s) = true.
Proof.
  induction s as [|c s IH]; simpl; [done|].
  destruct (p c) eqn:Hc; [done|]. simpl. by rewrite Hc, IH.
Qed.

Lemma all_chars_strip_by q p s : all_chars q s = true → all_chars q (Py.strip_by p s) = true.
Proof. intros Hs. by apply all_chars_rstrip_by, all_chars_lstrip_by. Qed.

Lemma all_chars_tail q c s : all_chars q (String c s) = true → all_chars q s = true.
Proof. simpl. by intros [_ ?]%andb_true_iff. Qed.

Lemma numbered_capture_chars line cap :
  all_chars is_dot line = true →
  numbered_capture line = Some cap →
  all_chars is_dot cap = true ∧ all_chars (λ c, negb (is_char ":"%char c)) cap = true.
Proof.
  intros Hline. unfold numbered_capture. destruct line as [|c s]; [done|].
  destruct (is_decimal c); [|done].
  pose proof (all_chars_lstrip_by is_decimal is_dot _ Hline) as Hrest.
  destruct (Py.lstrip_by is_decimal (String c s)) as [|d rest]; [done|].
  destruct (is_char "."%char d); [|done]. intros [= <-]. split.
  - by apply all_chars_until, all_chars_lstrip_by, (all_chars_tail _ d).
  - apply until_excludes.
Qed.

Lemma length_omap_le {A B} (f : A → option B) (l : list A) : length (omap f l) ≤ length l.
Proof. induction l as [|x l IH]; csimpl; [done|]. destruct (f x); simpl; lia. Qed.

(** X14. Every label that the decomposer's parser returns is free of
    colons and line feeds and neither starts nor ends with an asterisk;
    and there are never more labels than lines in the response. *)
Theorem parsed_labels_shape (raw : string) :
  length (parse_subcategories raw) ≤ length (Py.split LF raw)
  ∧ ∀ label, label ∈ parse_subcategories raw →
      all_chars (λ c, negb (is_char ":"%char c)) label = true
      ∧ all_chars is_dot label = true
      ∧ starts_clean (λ c, Py.mem c "**") label
      ∧ ends_clean (λ c, Py.mem c "**") label.
Proof.
  rewrite parse_subcategories_capture. split; [apply length_omap_le|].
  intros label (line & Hline & Hlabel)%list_elem_of_omap.
  pose proof (split_no_sep LF raw) as Hfree. rewrite Forall_forall in Hfree.
  specialize (Hfree line Hline). unfold capture_label in Hlabel.
  destruct (numbered_capture (Py.strip line)) as [cap|] eqn:Hcap; [|done].
  injection Hlabel as <-.
  destruct (numbered_capture_chars (Py.strip line) cap) as [Hdot Hcolon];
    [by apply all_chars_strip_by|done|].
  split; [by do 2 apply all_chars_strip_by|].
  split; [by do 2 apply all_chars_strip_by|].
  destruct (strip_by_spec (λ c, Py.mem c "**") (Py.strip cap)) as (a & b & _ & _ & _ & Hs & He).
  by split.
Qed.

(** ** Which lines are numbered *)

Lemma lstrip_by_app_all p a t :
  all_chars p a = true → Py.lstrip_by p (a +:+ t) = Py.lstrip_by p t.
Proof.
  induction a as [|c a IH]; [done|]. intros [Hc Ha]%andb_true_iff.
  rewrite app_cons. cbn [Py.lstrip_by]. rewrite Hc. by apply IH.
Qed.

(** X15. A line without line feed matches the numbered-line pattern
    exactly when it begins with one or more decimal digits followed by a
    period; whatever comes after the period is accepted.  A line that
    begins with anything but a digit (a bullet, a heading, a word) never
    matches. *)
Theorem numbered_line_iff (line : string) :
  (all_chars is_dot line = true →
     (is_Some (match_numbered line) ↔
        ∃ digits rest, line = digits +:+ "." +:+ rest ∧ digits ≠ ""
                       ∧ all_chars is_decimal digits = true))
  ∧ (∀ c rest, line = String c rest → is_decimal c = false → match_numbered line = None).
Proof.
  split.
  - intros Hline. rewrite (match_numbered_capture line Hline). split.
    + unfold numbered_capture. destruct line as [|c s]; [by intros [? ?]|].
      destruct (is_decimal c) eqn:Hc; [|by intros [? ?]].
      destruct (lstrip_by_split is_decimal (String c s)) as (digits & Hsplit & Hdigits).
      destruct (Py.lstrip_by is_decimal (String c s)) as [|d rest]; [by intros [? ?]|].
      destruct (is_char "."%char d) eqn:Hd; [|by intros [? ?]]. intros _.
      apply Ascii.eqb_eq in Hd as <-.
      exists digits, rest. split; [exact Hsplit|]. split; [|exact Hdigits].
      intros ->. rewrite app_empty_l in Hsplit. injection Hsplit as -> _. done.
    + intros (digits & rest & -> & Hne & Hdigits). unfold numbered_capture.
      destruct digits as [|c ds]; [done|]. rewrite app_cons.
      rewrite <- (app_cons c ds). rewrite (lstrip_by_app_all _ _ _ Hdigits).
      simpl in Hdigits. apply andb_true_iff in Hdigits as [-> _]. by eexists.
  - intros c rest -> Hc. unfold match_numbered, Re.plus, Re.chr. by rewrite Hc.
Qed.

Lemma numbered_line_iff_witness :
  is_Some (match_numbered "12. Storage: batteries").
Proof.
  apply (proj1 (numbered_line_iff "12. Storage: batteries")); [reflexivity|].
  exists "12", " Storage: batteries". by repeat split.
Defined.

(** ** Lines and line feeds *)

Lemma split_cons_shape sep s : ∃ w ws, Py.split sep s = w :: ws.
Proof.
  induction s as [|c s (w & ws & IH)]; simpl; [by eexists _, _|].
  destruct (Ascii.eqb c sep); [by eexists _, _|]. rewrite IH. by eexists _, _.
Qed.

Lemma join_cons_cons sep x y l :
  Py.join sep (x :: y :: l) = x +:+ sep +:+ Py.join sep (y :: l).
Proof. done. Qed.

Lemma split_sep_free sep w t :
  all_chars (λ c, negb (Ascii.eqb c sep)) w = true →
  Py.split sep (w +:+ String sep t) = w :: Py.split sep t.
Proof.
  induction w as [|c w IH].
  - intros _. rewrite app_empty_l. simpl. by rewrite Ascii.eqb_refl.
  - intros [Hc Hw]%andb_true_iff. rewrite app_cons. cbn [Py.split].
    apply negb_true_iff in Hc. rewrite Hc. by rewrite (IH Hw).
Qed.

Lemma split_sep_free_end sep w :
  all_chars (λ c, negb (Ascii.eqb c sep)) w = true → Py.split sep w = [w].
Proof.
  induction w as [|c w IH]; simpl; [done|].
  intros [Hc Hw]%andb_true_iff. apply negb_true_iff in Hc. by rewrite Hc, (IH Hw).
Qed.

(** X16. Splitting at line feeds and joining with line feeds undo each
    other: the lines of a text joined again give the text, and a non-empty
    list of strings without line feed (labels, or references when no title
    holds one) joined and split again gives the list: one entry per line.  *)
Theorem split_join_round_trip :
  (∀ s, Py.join NL (Py.split LF s) = s)
  ∧ (∀ l, l ≠ [] → Forall (λ w, all_chars is_dot w = true) l →
       Py.split LF (Py.join NL l) = l).
Proof.
  split.
  - induction s as [|c s IH]; [done|]. simpl.
    destruct (split_cons_shape LF s) as (w & ws & Hs). rewrite Hs in IH |- *.
    destruct (Ascii.eqb c LF) eqn:Hc.
    + apply Ascii.eqb_eq in Hc as ->. rewrite join_cons_cons, IH. done.
    + destruct ws as [|w' ws]; simpl in *; [by rewrite IH|].
      rewrite app_cons. by rewrite IH.
  - induction l as [|x l IH]; [done|]. intros _ [Hx Hl]%Forall_cons.
    destruct l as [|y l]; [by apply split_sep_free_end|].
    rewrite join_cons_cons. unfold NL at 1. rewrite app_cons, app_empty_l.
    rewrite (split_sep_free LF x _ Hx). f_equal. by apply IH.
Qed.

Lemma split_join_round_trip_witness :
  Py.split LF (Py.join NL ["A. (2020). T."; "B. (2019). U."]) = ["A. (2020). T."; "B. (2019). U."].
Proof.
  apply (proj2 split_join_round_trip); [discriminate|].
  by repeat constructor.
Defined.

(** ** The word-processor document *)

Lemma star_fails_within {R} (p q : ascii → bool) s (k : string → option R) :
  all_chars q s = true →
  k (Py.lstrip_by p s) = None →
  (∀ c t, p c = true → q c = true → k (String c t) = None) →
  Re.star p s k = None.
Proof.
  intros Hq Hlast Hshort. induction s as [|c s IH]; simpl in *; [done|].
  apply andb_true_iff in Hq as [Hc Hs].
  destruct (p c) eqn:Hp; [|done]. rewrite (IH Hs Hlast). by apply Hshort.
Qed.

Lemma lstrip_by_empty p s : Py.lstrip_by p s = "" → all_chars p s = true.
Proof.
  induction s as [|c s IH]; simpl; [done|].
  destruct (p c); [|done]. intros H. by rewrite IH.
Qed.

Lemma eos_dot c t : is_dot c = true → Re.eos (String c t) = false.
Proof. intros Hc. simpl. destruct t; [by apply is_dot_not_LF|done]. Qed.

(** On a line without line feed the heading pattern asks for a capital
    letter followed by at least one more character, all of them letters,
    white space or commas. *)
Lemma match_heading_direct line :
  all_chars is_dot line = true →
  Docx.match_heading line =
    match line with
    | String c rest =>
        Docx.is_upper c && Py.truthy rest && all_chars Docx.is_heading_char rest
    | EmptyString => false
    end.
Proof.
  unfold Docx.match_heading, Re.plus, Re.chr. destruct line as [|c rest]; [done|].
  intros [Hc Hrest]%andb_true_iff.
  destruct (Docx.is_upper c); [|done]. destruct rest as [|d r]; [done|].
  cbn [Py.truthy all_chars andb]. apply andb_true_iff in Hrest as [Hd Hr].
  destruct (Docx.is_heading_char d); [|done]. cbn [andb].
  destruct (all_chars Docx.is_heading_char r) eqn:Hall.
  - rewrite (star_longest Docx.is_heading_char r _ ()); [done|].
    by rewrite (lstrip_by_all _ _ Hall).
  - rewrite (star_fails_within Docx.is_heading_char is_dot r); [done|done| |].
    + pose proof (lstrip_by_clean Docx.is_heading_char r) as Hclean.
      pose proof (all_chars_lstrip_by Docx.is_heading_char is_dot r Hr) as Hdots.
      destruct (Py.lstrip_by Docx.is_heading_char r) as [|e t] eqn:Hstrip.
      * apply lstrip_by_empty in Hstrip. congruence.
      * simpl in Hdots. apply andb_true_iff in Hdots as [He _].
        by rewrite (eos_dot e t He).
    + intros c' t _ Hc'. by rewrite (eos_dot c' t Hc').
Qed.

Lemma block_text_classify line : Docx.block_text (Docx.classify line) = line.
Proof.
  unfold Docx.classify. destruct (bool_decide _); [done|].
  destruct line as [|c rest]; [done|].
  by destruct (Docx.is_upper c && Py.truthy rest && all_chars Docx.is_heading_char rest).
Qed.

Lemma add_line_classify doc line :
  all_chars is_dot line = true →
  Docx.add_line doc line =
    doc ++ (if Py.truthy (Py.strip line) then [Docx.classify (Py.strip line)] else []).
Proof.
  intros Hline. unfold Docx.add_line, Docx.classify.
  destruct (Py.truthy (Py.strip line)) eqn:Htruthy; simpl; [|by rewrite app_nil_r].
  destruct (bool_decide _); [done|].
  rewrite match_heading_direct by by apply all_chars_strip_by.
  destruct (Py.strip line) as [|c rest]; [done|].
  by destruct (Docx.is_upper c && Py.truthy rest && all_chars Docx.is_heading_char rest).
Qed.

Lemma add_dynamic_headings_lines lines : ∀ doc,
  Forall (λ w, all_chars is_dot w = true) lines →
  foldl Docx.add_line doc lines =
    doc ++ (Docx.classify <$> filter (λ l, Py.truthy l) (Py.strip <$> lines)).
Proof.
  induction lines as [|line lines IH]; intros doc Hlines; simpl.
  - by rewrite app_nil_r.
  - apply Forall_cons in Hlines as [Hline Hlines].
    rewrite (IH _ Hlines), (add_line_classify _ _ Hline), <- app_assoc. f_equal.
    destruct (Py.truthy (Py.strip line)) eqn:Ht.
    + by rewrite filter_cons_True by by rewrite Ht.
    + by rewrite filter_cons_False by (rewrite Ht; intros []).
Qed.

Lemma add_line_checked_classify doc line :
  all_chars is_dot line = true →
  Docx.add_line_checked doc line =
    if Py.truthy (Py.strip line) then Docx.add_block doc (Docx.classify (Py.strip line))
    else Ok doc.
Proof.
  intros Hline. unfold Docx.add_line_checked, Docx.classify.
  destruct (Py.truthy (Py.strip line)) eqn:Htruthy; simpl; [|done].
  destruct (bool_decide _); [done|].
  rewrite match_heading_direct by by apply all_chars_strip_by.
  destruct (Py.strip line) as [|c rest]; [done|].
  by destruct (Docx.is_upper c && Py.truthy rest && all_chars Docx.is_heading_char rest).
Qed.

Lemma accepted_classify line :
  Docx.accepted (Docx.classify line) = all_chars Docx.xml_compatible line.
Proof. unfold Docx.accepted. by rewrite block_text_classify. Qed.

Lemma add_dynamic_headings_checked_lines lines : ∀ doc,
  Forall (λ w, all_chars is_dot w = true) lines →
  foldl_outcome Docx.add_line_checked doc lines =
    if forallb (all_chars Docx.xml_compatible)
         (filter (λ l, Py.truthy l) (Py.strip <$> lines))
    then Ok (doc ++ (Docx.classify <$> filter (λ l, Py.truthy l) (Py.strip <$> lines)))
    else Raise ValueError.
Proof.
  induction lines as [|line lines IH]; intros doc Hlines.
  - simpl. by rewrite app_nil_r.
  - apply Forall_cons in Hlines as [Hline Hlines].
    cbn [foldl_outcome]. rewrite (add_line_checked_classify _ _ Hline), fmap_cons.
    destruct (Py.truthy (Py.strip line)) eqn:Ht.
    + rewrite filter_cons_True by by rewrite Ht.
      unfold Docx.add_block. rewrite accepted_classify. cbn [forallb fmap list_fmap].
      destruct (all_chars Docx.xml_compatible (Py.strip line)); cbn [andb]; [|done].
      unfold mbind, outcome_bind. rewrite (IH _ Hlines).
      destruct (forallb _ _); [|done]. by rewrite <- app_assoc.
    + rewrite filter_cons_False by (rewrite Ht; intros []).
      unfold mbind, outcome_bind. by apply IH.
Qed.

(** X17. [add_dynamic_headings] goes through the lines of the text in
    order and asks python-docx for one block per line that is not blank,
    holding that line without its surrounding white space; blank lines
    leave no trace.  The block is a centred level-1 heading when the line
    is one of title, abstract, introduction and conclusion in any letter
    case; otherwise a left-aligned level-2 heading when it starts with a
    capital letter A..Z and goes on with at least one more character, all
    of them unaccented letters, white space or commas; otherwise an
    indented, double-spaced paragraph.  python-docx accepts a block only
    when its text is XML compatible: when every line that is not blank is,
    the body has exactly these blocks after those it had; when one is not,
    [ValueError] is raised.  So the line made of A, a form feed and B,
    which reads as a level-2 heading, gives no block but [ValueError]. *)
Theorem docx_body_blocks (doc : list Docx.block) (text : string) :
  let lines := filter (λ l, Py.truthy l) (Py.strip <$> Py.split LF text) in
  Docx.add_dynamic_headings_checked doc text =
    (if forallb (all_chars Docx.xml_compatible) lines
     then Ok (doc ++ (Docx.classify <$> lines))
     else Raise ValueError)
  ∧ Docx.block_text <$> (Docx.classify <$> lines) = lines
  ∧ (∀ blocks, Docx.add_dynamic_headings_checked doc text = Ok blocks →
       blocks = Docx.add_dynamic_headings doc text)
  ∧ Docx.classify ("A" +:+ String (ascii_of_N 12) "B")
    = Docx.Heading ("A" +:+ String (ascii_of_N 12) "B") 2 Docx.LEFT
  ∧ Docx.add_dynamic_headings_checked [] ("A" +:+ String (ascii_of_N 12) "B")
    = Raise ValueError.
Proof.
  intros lines.
  assert (H : Docx.add_dynamic_headings_checked doc text =
    (if forallb (all_chars Docx.xml_compatible) lines
     then Ok (doc ++ (Docx.classify <$> lines)) else Raise ValueError)).
  { unfold Docx.add_dynamic_headings_checked.
    apply add_dynamic_headings_checked_lines, split_no_sep. }
  split; [exact H|]. split; [|split; [|split]].
  - rewrite <- list_fmap_compose. rewrite <- (list_fmap_id lines) at 2.
    apply list_fmap_ext. intros i line _. apply block_text_classify.
  - intros blocks. rewrite H. destruct (forallb _ _); [|done]. intros [= <-].
    unfold Docx.add_dynamic_headings. symmetry.
    apply add_dynamic_headings_lines, split_no_sep.
  - reflexivity.
  - reflexivity.
Qed.

Lemma add_references_blocks doc refs :
  Docx.add_references doc refs =
    doc ++ match refs with
           | [] => []
           | _ :: _ => Docx.Heading "References" 1 Docx.CENTER :: (Docx.reference_block <$> refs)
           end.
Proof.
  unfold Docx.add_references. destruct refs as [|r refs]; [by rewrite app_nil_r|].
  generalize (r :: refs) as l. intros l.
  enough (H : ∀ d, foldl (λ doc ref_entry,
                 doc ++ [Docx.Paragraph ref_entry 2 (Some Docx.half_inch)
                           (Some (- Docx.half_inch)%Z) (Some Docx.LEFT)]) d l
               = d ++ (Docx.reference_block <$> l)).
  { rewrite H. by rewrite <- app_assoc. }
  induction l as [|x l IH]; intros d; simpl; [by rewrite app_nil_r|].
  rewrite IH. by rewrite <- app_assoc.
Qed.

Lemma consolidate_blank X : (∀ r, r ∈ X → Py.strip r = "") → consolidate X = [].
Proof.
  intros Hblank. destruct (consolidate X) as [|s l] eqn:Hc; [done|].
  assert (s ∈ consolidate X) as Hin by (rewrite Hc; left).
  apply elem_of_consolidate in Hin as [Hs [r [Hr <-]]]. by destruct Hs; apply Hblank.
Qed.



(** ** The web-search researcher *)

(** X19. Every call of [research_subcategory] of searched_research.py
    makes at most one GET and then at most one POST, and nothing else.
    When it returns a narrative, both calls were made and the narrative
    has no white space at either end; when it returns no narrative it
    returns no reference either; when it raises, the exception is a
    [TypeError] raised before the engine is called, or an
    [AttributeError] (as for an answer whose 'data' is not a string). *)
Theorem searched_research_outcomes W subcategory tr :
  ∃ gets posts,
    (Searched.research_subcategory W subcategory tr).2 = tr ++ gets ++ posts
    ∧ (gets = [] ∨ ∃ g, gets = [EvGet g])
    ∧ (posts = [] ∨ ∃ p, posts = [EvPost p])
    ∧ match (Searched.research_subcategory W subcategory tr).1 with
      | Ok (Some text, refs) =>
          (∃ g, gets = [EvGet g]) ∧ (∃ p, posts = [EvPost p])
          ∧ starts_clean is_space text ∧ ends_clean is_space text
      | Ok (None, refs) => refs = []
      | Raise e => (e = TypeError ∧ posts = []) ∨ e = AttributeError
      end.
Proof.
  assert (Hsearch : ∃ results gets,
    Searched.google_search W (subcategory +:+ " research paper academic source") tr
      = (Ok results, tr ++ gets)
    ∧ ((gets = [] ∧ results = []) ∨ ∃ g, gets = [EvGet g])).
  { unfold Searched.google_search.
    destruct (Searched.validate_google_search_api_key W) as [[api_key cse_id]|].
    - unfold mbind, M_bind, Shared.requests_get.
      destruct (http_get W tr _) as [|status data];
        [|destruct (OpenAlex.raise_for_status status)]; eexists _, [EvGet _]; eauto.
    - exists [], []. rewrite app_nil_r. eauto. }
  destruct Hsearch as (results & gets & Hsearch & Hgets). exists gets.
  assert (Hgshape : gets = [] ∨ ∃ g, gets = [EvGet g]).
  { destruct Hgets as [[-> _]|Hg]; [by left|by right]. }
  destruct (Searched.research_subcategory W subcategory tr) as [o tr'] eqn:Hrun.
  cbn [fst snd]. unfold Searched.research_subcategory in Hrun.
  rewrite (bind_Ok _ _ _ _ _ Hsearch) in Hrun.
  destruct results as [|w ws].
  { injection Hrun as <- <-. exists []. rewrite app_nil_r. eauto. }
  assert (Hg : ∃ g, gets = [EvGet g]).
  { destruct Hgets as [[_ ?]|Hg]; [done|exact Hg]. }
  destruct (Searched.extract (w :: ws)) as [ctx refs].
  destruct (make_llm_request_shape W
              (Shared.user_message (Searched.prompt subcategory ctx))
              "gpt-4o" "0.5" 2500 (tr ++ gets))
    as (response & posts & Hcall & Hposts).
  rewrite (bind_Ok _ _ _ _ _ Hcall), <- app_assoc in Hrun. exists posts.
  assert (Hshape : posts = [] ∨ ∃ p, posts = [EvPost p]).
  { destruct Hposts as [[-> _]|Hp]; [by left|by right]. }
  destruct (dict_truthy response) as [d|] eqn:Htruthy.
  - assert (∃ p, posts = [EvPost p]) as Hp.
    { destruct Hposts as [[_ ->]|Hp]; [discriminate Htruthy|exact Hp]. }
    unfold mbind, M_bind, lift in Hrun.
    destruct (Shared.response_data d); simpl in Hrun; injection Hrun as <- <-;
      (split; [reflexivity|]); (split; [exact Hgshape|]); (split; [exact Hshape|]);
      try done; try (by right).
    split; [exact Hg|]. split; [exact Hp|]. apply strip_clean.
  - injection Hrun as <- <-. split; [reflexivity|]. by repeat split.
Qed.

(** ** How many requests a run makes *)

Lemma count_gets_app a b : count_gets (a ++ b) = count_gets a + count_gets b.
Proof. unfold count_gets, trace. by rewrite filter_app, length_app. Qed.

Lemma count_posts_app a b : count_posts (a ++ b) = count_posts a + count_posts b.
Proof. unfold count_posts, trace. by rewrite filter_app, length_app. Qed.

Lemma make_llm_request_counts W messages model temperature max_tokens tr :
  let r := Shared.make_llm_request W messages model temperature max_tokens tr in
  count_gets r.2 = count_gets tr ∧ count_posts r.2 ≤ S (count_posts tr).
Proof.
  destruct (make_llm_request_shape W messages model temperature max_tokens tr)
    as (response & posts & Hcall & Hposts).
  simpl. rewrite Hcall. simpl. rewrite count_gets_app, count_posts_app.
  destruct Hposts as [[-> _]|[req ->]]; simpl; unfold count_gets, count_posts; simpl; lia.
Qed.

Lemma openalex_research_counts W subcategory tr :
  let r := OpenAlex.research_subcategory W subcategory tr in
  count_gets r.2 = S (count_gets tr) ∧ count_posts r.2 ≤ S (count_posts tr).
Proof.
  destruct (openalex_search_trace W (subcategory +:+ " research paper") 5
              (getenv W "OPENALEX_EMAIL") tr) as (results & req & Hsearch).
  assert (Hg : count_gets (tr ++ [EvGet req]) = S (count_gets tr)).
  { rewrite count_gets_app. unfold count_gets at 2. simpl. lia. }
  assert (Hp : count_posts (tr ++ [EvGet req]) = count_posts tr).
  { rewrite count_posts_app. unfold count_posts at 2. simpl. lia. }
  simpl. unfold OpenAlex.research_subcategory.
  rewrite (bind_Ok _ _ _ _ _ Hsearch).
  destruct results as [|w ws]; [simpl; lia|].
  destruct (OpenAlex.extract (w :: ws)) as [[ctx refs]|e];
    unfold mbind at 1, M_bind at 1, lift at 1; [|simpl; lia].
  pose proof (make_llm_request_counts W
    (Shared.user_message (OpenAlex.prompt subcategory ctx)) "gpt-4o" "0.5" 2500
    (tr ++ [EvGet req])) as [Hcg Hcp]. simpl in Hcg, Hcp.
  unfold mbind, M_bind, lift.
  destruct (Shared.make_llm_request W _ "gpt-4o" "0.5" 2500 (tr ++ [EvGet req]))
    as [[response|e] tr2]; simpl in *; [|lia].
  destruct (dict_truthy response) as [d|]; [|simpl; lia].
  destruct (as_str AttributeError (Shared.response_data d)); simpl; lia.
Qed.

Lemma research_step_counts W acc subcategory tr :
  let r := Shared.research_step (OpenAlex.research_subcategory W) acc subcategory tr in
  count_gets r.2 = S (count_gets tr) ∧ count_posts r.2 ≤ S (count_posts tr).
Proof.
  pose proof (openalex_research_counts W subcategory tr) as H. simpl in *.
  destruct acc as [findings refs]. unfold Shared.research_step, mbind, M_bind.
  destruct (OpenAlex.research_subcategory W subcategory tr) as [[[text references]|e] tr1];
    simpl in *; [|done].
  by destruct text as [[|c t]|].
Qed.

Lemma research_loop_budget_from W (subcategories : list string) : ∀ acc tr,
  let r := foldlM (Shared.research_step (OpenAlex.research_subcategory W)) acc subcategories tr in
  count_gets r.2 ≤ count_gets tr + length subcategories
  ∧ count_posts r.2 ≤ count_posts tr + length subcategories
  ∧ (∀ result, r.1 = Ok result → count_gets r.2 = count_gets tr + length subcategories).
Proof.
  induction subcategories as [|s subs IH]; intros acc tr; simpl.
  { repeat split; try lia. }
  pose proof (research_step_counts W acc s tr) as [Hg Hp]. simpl in Hg, Hp.
  unfold mbind, M_bind.
  destruct (Shared.research_step (OpenAlex.research_subcategory W) acc s tr)
    as [[acc'|e] tr1]; simpl in *.
  - destruct (IH acc' tr1) as (IHg & IHp & IHok). simpl in *.
    split; [lia|]. split; [lia|]. intros result Hres. rewrite (IHok result Hres). lia.
  - split; [lia|]. split; [lia|]. by intros.
Qed.

(** X20. The loop of openAlex.py makes no retry: each subcategory it
    reaches costs exactly one search and at most one synthesis call, so a
    loop that runs to its end has made exactly as many searches as there
    are subcategories and at most as many synthesis calls; a loop stopped
    by an exception has made fewer or as many. *)
Theorem research_loop_budget W (subcategories : list string) tr :
  let r := Shared.research_loop (OpenAlex.research_subcategory W) subcategories tr in
  count_gets r.2 ≤ count_gets tr + length subcategories
  ∧ count_posts r.2 ≤ count_posts tr + length subcategories
  ∧ (∀ result, r.1 = Ok result → count_gets r.2 = count_gets tr + length subcategories).
Proof.
  unfold Shared.research_loop.
  apply (research_loop_budget_from W subcategories ([], []) tr).
Qed.

Lemma research_loop_budget_witness :
  let W := scripted [answer "n1"; HttpError] [found [work1]; found [work2]] in
  count_gets (Shared.research_loop (OpenAlex.research_subcategory W) ["Foo"; "Baz"] []).2 = 2.
Proof.
  intros W.
  apply (proj2 (proj2 (research_loop_budget W ["Foo"; "Baz"] []))
           (["n1"], ["A. Green, B. Lee (2020). Solar cells. https://doi.org/10.1/x"])).
  vm_compute. reflexivity.
Defined.

Lemma consolidate_order_independent_witness :
  consolidate ["b"; " a"] = consolidate [" a"; "b"].
Proof.
  apply (proj1 (consolidate_order_independent ["b"; " a"] [" a"; "b"])).
  apply Permutation_swap.
Defined.

Lemma consolidate_bounds_witness :
  "a" ≠ "" ∧ starts_clean is_space "a" ∧ ends_clean is_space "a".
Proof.
  apply (proj2 (proj2 (consolidate_bounds ["b"; " a"])) "a").
  vm_compute. left.
Defined.

Lemma parsed_labels_shape_witness :
  all_chars (λ c, negb (is_char ":"%char c)) "Baz" = true
  ∧ all_chars is_dot "Baz" = true
  ∧ starts_clean (λ c, Py.mem c "**") "Baz"
  ∧ ends_clean (λ c, Py.mem c "**") "Baz".
Proof.
  apply (proj2 (parsed_labels_shape sample_response) "Baz").
  vm_compute. right. left.
Defined.
